(** * zod-fragments: validation fragment factories over the zod runtime

    The development embeds [src/index.ts] and [src/extensions.ts].  The
    fragments are thin compositions of zod schema constructors, so the
    file has three layers:

    - [Js]: the pieces of the ECMAScript runtime the fragments call
      (strings, anchored regular expressions, [Number], [Math.round]);
    - [Zod]: the synchronous parse pipeline of the zod classes the
      fragments instantiate ([ZodString], [ZodNumber], [ZodBoolean],
      [ZodEnum], [ZodOptional], [ZodEffects], [ZodUnion]), with the
      issue list of the parse context threaded explicitly;
    - [Fragments] and [Extensions]: the factories themselves, one
      definition per exported factory, in source order; [ZodMore] and
      [MoreExtensions] go on with the classes and the factories of
      [src/extensions.ts] that preprocess, pipe, or build arrays and
      objects.

    Conventions.

    - Strings are sequences of code units in the Latin-1 range (one
      [ascii] per UTF-16 code unit below 256).
    - Numbers are IEEE-754 binary64 values ([PrimFloat.float]).
    - An optional parameter is an [option]; [None] is the omitted
      argument, which takes the default of the signature.
    - The runtime is zod 3 in its releases from 3.23 on: a message given
      to a check or a refinement is used as it is, the UUID pattern is the
      plain 8-4-4-4-12 one, and a transform over a result that is not valid
      yields a result that is not valid.
    - [Date.parse], the host's URL parser ([new URL(s)] returns or
      throws) and [Number] of an array or object are parameters of the
      fragments that call them.

    Every factory of the two files that takes [(label, msg)] is embedded.
    The exports whose schemas need records, defaults, literals, integer or
    maximum checks, [z.coerce] or a [Set] ([paginationFields],
    [listQueryFields], [seoFields], [enumWithLabels], the pagination
    builders, [seoFieldsStrict], [priceObject], [uniqueArrayBy],
    [imageUrlStrict], [recordOf]) are not. *)

From Stdlib Require Import Bool Arith ZArith Lia List Ascii String Floats.
Import ListNotations.

Set Implicit Arguments.
Set Warnings "-register-all,-inexact-float".

Declare Scope zod_scope.
Delimit Scope zod_scope with zod.
Open Scope string_scope.
Open Scope zod_scope.

(** Method chaining [x.f(a)] is written [x |> f a]. *)
Notation "x |> f" := (f x) (at level 68, left associativity, only parsing) : zod_scope.

(* ================================================================== *)
(** * The ECMAScript runtime used by the fragments *)
(* ================================================================== *)

Module Js.

(** ** Strings *)

(** [WhiteSpace] and [LineTerminator] code units below 256: TAB, LF, VT,
    FF, CR, SP and NBSP.  This is the set removed by [String.prototype.trim]
    and matched by the class escape [\s]. *)
Definition isWhiteSpace (c : ascii) : bool :=
  let n := nat_of_ascii c in
  (((9 <=? n) && (n <=? 13)) || (n =? 32) || (n =? 160))%nat.

Definition isDigit (c : ascii) : bool :=
  let n := nat_of_ascii c in ((48 <=? n) && (n <=? 57))%nat.

Definition inRange (lo hi : ascii) (c : ascii) : bool :=
  ((nat_of_ascii lo <=? nat_of_ascii c) && (nat_of_ascii c <=? nat_of_ascii hi))%nat.

Fixpoint trimStart (s : string) : string :=
  match s with
  | EmptyString => EmptyString
  | String c r => if isWhiteSpace c then trimStart r else s
  end.

Fixpoint trimEnd (s : string) : string :=
  match s with
  | EmptyString => EmptyString
  | String c r =>
      match trimEnd r with
      | EmptyString => if isWhiteSpace c then EmptyString else String c EmptyString
      | r' => String c r'
      end
  end.

(** [s.trim()] *)
Definition trim (s : string) : string := trimEnd (trimStart s).

(** Simple case mapping of one code unit below 256: A-Z and the Latin-1
    capitals U+00C0..U+00DE (except the multiplication sign U+00D7). *)
Definition toLowerCaseChar (c : ascii) : ascii :=
  let n := nat_of_ascii c in
  if (((65 <=? n) && (n <=? 90)) || ((192 <=? n) && (n <=? 222) && negb (n =? 215)))%nat
  then ascii_of_nat (n + 32)
  else c.

(** [s.toLowerCase()] *)
Fixpoint toLowerCase (s : string) : string :=
  match s with
  | EmptyString => EmptyString
  | String c r => String (toLowerCaseChar c) (toLowerCase r)
  end.

(** [s.replace(/[cls]/g, "")]: every code unit of the class is removed. *)
Fixpoint removeAll (cls : ascii -> bool) (s : string) : string :=
  match s with
  | EmptyString => EmptyString
  | String c r => if cls c then removeAll cls r else String c (removeAll cls r)
  end.

(** [s.startsWith(p)] *)
Definition startsWith (p s : string) : bool := String.prefix p s.

(** [s.slice(n)] for a non-negative [n]. *)
Fixpoint slice (n : nat) (s : string) : string :=
  match n, s with
  | O, _ => s
  | S n', String _ r => slice n' r
  | S _, EmptyString => EmptyString
  end.

(** [xs.join(sep)] *)
Definition join (sep : string) (xs : list string) : string := String.concat sep xs.

(** Every code unit of the string is in the class. *)
Fixpoint allChars (p : ascii -> bool) (s : string) : bool :=
  match s with
  | EmptyString => true
  | String c r => p c && allChars p r
  end.

(** ** Numbers *)

Definition number : Type := float.

(** The Number value for the real [(-1)^neg * m * 10^e]: the nearest
    binary64 value, ties to even (ECMAScript [StringNumericValue]). *)
Definition roundDecimal (neg : bool) (m : positive) (e : Z) : number :=
  match e with
  | Zneg k =>
      SF2Prim (SFdiv prec emax (S754_finite neg m 0)
                                (S754_finite false (Pos.pow 10 k) 0))
  | _ =>
      SF2Prim (binary_normalize prec emax
                 ((if neg then Z.neg m else Z.pos m) * 10 ^ e) 0 neg)
  end.

Definition decimalValue (neg : bool) (m : Z) (e : Z) : number :=
  match m with
  | Zpos p => roundDecimal neg p e
  | _ => if neg then neg_zero else zero
  end.

Definition digitValue (radix : Z) (c : ascii) : option Z :=
  let n := Z.of_nat (nat_of_ascii c) in
  let v :=
    if ((48 <=? n) && (n <=? 57))%Z then Some (n - 48)%Z
    else if ((97 <=? n) && (n <=? 102))%Z then Some (n - 87)%Z
    else if ((65 <=? n) && (n <=? 70))%Z then Some (n - 55)%Z
    else None in
  match v with
  | Some d => if (d <? radix)%Z then Some d else None
  | None => None
  end.

(** Reads the longest prefix of digits of the radix: its value on top of
    [acc], the number of digits read, and the rest of the string. *)
Fixpoint readDigits (radix : Z) (acc : Z) (count : nat) (s : string) : Z * nat * string :=
  match s with
  | String c r =>
      match digitValue radix c with
      | Some d => readDigits radix (acc * radix + d)%Z (S count) r
      | None => (acc, count, s)
      end
  | EmptyString => (acc, count, s)
  end.

Definition readSign (s : string) : bool * string :=
  match s with
  | String "-" r => (true, r)
  | String "+" r => (false, r)
  | _ => (false, s)
  end.

(** [ExponentPart]: [e] or [E], an optional sign, at least one digit.
    [None] is a malformed exponent. *)
Definition readExponent (s : string) : option (Z * string) :=
  match s with
  | String c r =>
      if (Ascii.eqb c "e" || Ascii.eqb c "E")%bool then
        let '(neg, r1) := readSign r in
        let '(v, n, r2) := readDigits 10 0 0 r1 in
        match n with
        | O => None
        | _ => Some (if neg then (- v)%Z else v, r2)
        end
      else Some (0%Z, s)
  | EmptyString => Some (0%Z, s)
  end.

(** [StrDecimalLiteral], after the white space is stripped. *)
Definition parseDecimalLiteral (s : string) : number :=
  let '(neg, r0) := readSign s in
  if String.eqb r0 "Infinity" then (if neg then neg_infinity else infinity)
  else
    let '(i, ni, r1) := readDigits 10 0 0 r0 in
    let '(m, nf, r2) :=
      match r1 with
      | String "." r => let '(m, nf, r2) := readDigits 10 i 0 r in (m, nf, r2)
      | _ => (i, O, r1)
      end in
    match (ni + nf)%nat with
    | O => nan
    | _ =>
        match readExponent r2 with
        | Some (e, EmptyString) => decimalValue neg m (e - Z.of_nat nf)
        | _ => nan
        end
    end.

(** [NonDecimalIntegerLiteral]: [0x], [0o] and [0b] prefixes, no sign. *)
Definition parseNonDecimal (radix : Z) (digits : string) : number :=
  match readDigits radix 0 0 digits with
  | (_, O, _) => nan
  | (v, _, EmptyString) => decimalValue false v 0
  | _ => nan
  end.

(** [Number(s)] on a string ([StringToNumber]). *)
Definition Number (s : string) : number :=
  match trim s with
  | EmptyString => zero
  | String "0" (String "x" d) | String "0" (String "X" d) => parseNonDecimal 16 d
  | String "0" (String "o" d) | String "0" (String "O" d) => parseNonDecimal 8 d
  | String "0" (String "b" d) | String "0" (String "B" d) => parseNonDecimal 2 d
  | t => parseDecimalLiteral t
  end.

(** [Number.isFinite(n)] and [isNaN(n)] on a number. *)
Definition isFinite (n : number) : bool := PrimFloat.is_finite n.
Definition isNaN (n : number) : bool := PrimFloat.is_nan n.

(** [n >= m] *)
Definition geq (n m : number) : bool := PrimFloat.leb m n.
(** [n > m], [n < m], [n <= m] *)
Definition gt (n m : number) : bool := PrimFloat.ltb m n.

(** The Number value of an integer of magnitude at most 2^53 (exact). *)
Definition ofInteger (negZero : bool) (z : Z) : number :=
  match z with
  | Z0 => if negZero then neg_zero else zero
  | Zpos _ => PrimFloat.of_uint63 (Uint63.of_Z z)
  | Zneg p => PrimFloat.opp (PrimFloat.of_uint63 (Uint63.of_Z (Zpos p)))
  end.

(** [Math.round(x)]: the integral Number closest to [x], ties towards
    +Infinity; NaN, the infinities, the zeros and integral values are
    returned as they are, and a result of zero keeps the sign of [x]. *)
Definition Math_round (x : number) : number :=
  match Prim2SF x with
  | S754_finite neg m e =>
      match e with
      | Zneg k =>
          let sm := if neg then Z.neg m else Z.pos m in
          (* floor (sm * 2^e + 1/2) *)
          ofInteger neg (Z.div (2 * sm + Z.pow_pos 2 k) (2 * Z.pow_pos 2 k))
      | _ => x
      end
  | _ => x
  end.

(** ** Anchored regular expressions

    Every pattern of the source is of the form [/^...$/] over character
    classes, concatenation and bounded or unbounded repetition, so
    [re.test(s)] is a whole-string match.  Matching is by Brzozowski
    derivatives. *)

Inductive RegExp : Type :=
| Never
| Empty
| Class (p : ascii -> bool)
| Seq (r1 r2 : RegExp)
| Alt (r1 r2 : RegExp)
| Star (r : RegExp).

(** [r+] and [r{n}] *)
Definition Plus (r : RegExp) : RegExp := Seq r (Star r).

Fixpoint Repeat (n : nat) (r : RegExp) : RegExp :=
  match n with
  | O => Empty
  | S n' => Seq r (Repeat n' r)
  end.

Definition Char (c : ascii) : RegExp := Class (Ascii.eqb c).

Fixpoint nullable (r : RegExp) : bool :=
  match r with
  | Never => false
  | Empty => true
  | Class _ => false
  | Seq r1 r2 => nullable r1 && nullable r2
  | Alt r1 r2 => nullable r1 || nullable r2
  | Star _ => true
  end.

Fixpoint derive (c : ascii) (r : RegExp) : RegExp :=
  match r with
  | Never => Never
  | Empty => Never
  | Class p => if p c then Empty else Never
  | Seq r1 r2 =>
      if nullable r1
      then Alt (Seq (derive c r1) r2) (derive c r2)
      else Seq (derive c r1) r2
  | Alt r1 r2 => Alt (derive c r1) (derive c r2)
  | Star r1 => Seq (derive c r1) (Star r1)
  end.

(** [/^r$/.test(s)] *)
Fixpoint test (r : RegExp) (s : string) : bool :=
  match s with
  | EmptyString => nullable r
  | String c rest => test (derive c r) rest
  end.

(** The language of a pattern, as a relation. *)
Inductive Matches : RegExp -> string -> Prop :=
| MEmpty : Matches Empty ""
| MClass p c : p c = true -> Matches (Class p) (String c "")
| MSeq r1 r2 s1 s2 : Matches r1 s1 -> Matches r2 s2 -> Matches (Seq r1 r2) (s1 ++ s2)
| MAltL r1 r2 s : Matches r1 s -> Matches (Alt r1 r2) s
| MAltR r1 r2 s : Matches r2 s -> Matches (Alt r1 r2) s
| MStarNil r : Matches (Star r) ""
| MStarCons r c s1 s2 :
    Matches r (String c s1) -> Matches (Star r) s2 -> Matches (Star r) (String c s1 ++ s2).

End Js.

(* ================================================================== *)
(** * The zod runtime: synchronous parsing *)
(* ================================================================== *)

Module ZodParsedType.

Inductive t : Set :=
| string | nan | number | boolean | undefined | null | array | object.

End ZodParsedType.

Module Zod.

Import Js.

(** Untrusted input ([unknown]). *)
Inductive JsValue : Type :=
| JUndefined
| JNull
| JBoolean (b : bool)
| JNumber (n : number)
| JString (s : string)
| JArray (items : list JsValue)
| JObject (fields : list (string * JsValue)).

(** [getParsedType(data)] *)
Definition getParsedType (data : JsValue) : ZodParsedType.t :=
  match data with
  | JUndefined => ZodParsedType.undefined
  | JString _ => ZodParsedType.string
  | JNumber n => if isNaN n then ZodParsedType.nan else ZodParsedType.number
  | JBoolean _ => ZodParsedType.boolean
  | JArray _ => ZodParsedType.array
  | JNull => ZodParsedType.null
  | JObject _ => ZodParsedType.object
  end.

Definition parsedTypeName (t : ZodParsedType.t) : string :=
  match t with
  | ZodParsedType.string => "string"
  | ZodParsedType.nan => "nan"
  | ZodParsedType.number => "number"
  | ZodParsedType.boolean => "boolean"
  | ZodParsedType.undefined => "undefined"
  | ZodParsedType.null => "null"
  | ZodParsedType.array => "array"
  | ZodParsedType.object => "object"
  end.

Definition parsedType_eqb (a b : ZodParsedType.t) : bool :=
  String.eqb (parsedTypeName a) (parsedTypeName b).

(** ** Issues and error maps *)

Inductive ZodIssueCode : Set :=
| invalid_type
| invalid_enum_value
| invalid_union
| invalid_string
| too_small
| custom.

(** A reported issue.  [received] is the parsed type of the input for an
    [invalid_type] issue.  Every fragment is validated as a whole value, so
    the path of an issue is always empty and is not recorded. *)
Record ZodIssue : Type := {
  code : ZodIssueCode;
  received : option ZodParsedType.t;
  message : string
}.

(** Issue data raised without a message of its own: its text comes from
    the error maps.  (Checks and refinements always carry the message the
    factory passed, see [addIssueWithMessage].) *)
Inductive IssueData : Type :=
| invalid_type_data (expected : string) (received : ZodParsedType.t)
| invalid_enum_value_data (options : list string) (received : string)
| invalid_union_data.

Definition issueCode (d : IssueData) : ZodIssueCode :=
  match d with
  | invalid_type_data _ _ => invalid_type
  | invalid_enum_value_data _ _ => invalid_enum_value
  | invalid_union_data => invalid_union
  end.

Definition issueReceived (d : IssueData) : option ZodParsedType.t :=
  match d with
  | invalid_type_data _ r => Some r
  | _ => None
  end.

(** [util.joinValues(values)]: each string quoted, joined by [" | "]. *)
Definition joinValues (values : list string) : string :=
  join " | " (map (fun v => "'" ++ v ++ "'") values).

(** An error map: issue, [ctx.data], [ctx.defaultError] to message. *)
Definition ZodErrorMap : Type := IssueData -> JsValue -> string -> string.

(** The English default error map on the issues above. *)
Definition defaultErrorMap (d : IssueData) : string :=
  match d with
  | invalid_type_data expected r =>
      if parsedType_eqb r ZodParsedType.undefined then "Required"
      else "Expected " ++ expected ++ ", received " ++ parsedTypeName r
  | invalid_enum_value_data options r =>
      "Invalid enum value. Expected " ++ joinValues options ++ ", received '" ++ r ++ "'"
  | invalid_union_data => "Invalid input"
  end.

(** [RawCreateParams].  zod refuses, at construction, an [errorMap] given
    together with one of the two messages; no factory does that. *)
Record RawCreateParams : Type := {
  errorMap : option ZodErrorMap;
  invalid_type_error : option string;
  required_error : option string
}.

(** [a ?? b] *)
Definition nullish (a : option string) (b : string) : string :=
  match a with
  | Some s => s
  | None => b
  end.

(** [processCreateParams(params)]: the schema's error map. *)
Definition processCreateParams (params : option RawCreateParams) : option ZodErrorMap :=
  match params with
  | None => None
  | Some p =>
      match errorMap p with
      | Some m => Some m
      | None =>
          Some (fun iss data defaultError =>
                  match issueCode iss, data with
                  | invalid_enum_value, _ => defaultError
                  | _, JUndefined => nullish (required_error p) defaultError
                  | invalid_type, _ => nullish (invalid_type_error p) defaultError
                  | _, _ => defaultError
                  end)
      end
  end.

(** [makeIssue]: the default map runs first, the schema's map last. *)
Definition makeIssue (schemaErrorMap : option ZodErrorMap) (data : JsValue)
    (d : IssueData) : ZodIssue :=
  let defaultError := defaultErrorMap d in
  {| code := issueCode d;
     received := issueReceived d;
     message := match schemaErrorMap with
                | Some m => m d data defaultError
                | None => defaultError
                end |}.

(** The issue list of the parse context ([ctx.common.issues]); parsing
    pushes onto it. *)
Definition Issues : Type := list ZodIssue.

Definition addIssueToContext (schemaErrorMap : option ZodErrorMap) (data : JsValue)
    (d : IssueData) (issues : Issues) : Issues :=
  (issues ++ [makeIssue schemaErrorMap data d])%list.

(** An issue whose [message] is given by the check or refinement. *)
Definition addIssueWithMessage (c : ZodIssueCode) (msg : string) (issues : Issues) : Issues :=
  (issues ++ [{| code := c; received := None; message := msg |}])%list.

(** [ParseReturnType]: [OK(v)], [DIRTY(v)] and [INVALID]. *)
Inductive ParseReturn (O : Type) : Type :=
| OK (value : O)
| DIRTY (value : O)
| INVALID.
Arguments OK {O} value.
Arguments DIRTY {O} value.
Arguments INVALID {O}.

(** [ParseStatus]: ["valid"] or ["dirty"] while a schema runs its checks. *)
Inductive ParseStatus : Set := valid | dirty.

Definition withStatus {O : Type} (st : ParseStatus) (v : O) : ParseReturn O :=
  match st with
  | valid => OK v
  | dirty => DIRTY v
  end.

(** A schema class with output type [O]: [_parse] on the input data and
    the issues pushed so far. *)
Class ZodType (S : Type) (O : Type) : Type :=
  _parse : S -> JsValue -> Issues -> ParseReturn O * Issues.
#[global] Hint Mode ZodType ! - : typeclass_instances.

(** ** ZodString *)

Inductive ZodStringCheck : Type :=
| check_min (value : nat) (message : string)
| check_uuid (message : string)
| check_regex (regex : RegExp) (message : string)
| check_url (parses : string -> bool) (message : string).

Record ZodString : Type := {
  string_checks : list ZodStringCheck;
  string_errorMap : option ZodErrorMap
}.

(** [z.string(params)] *)
Definition z_string (params : option RawCreateParams) : ZodString :=
  {| string_checks := []; string_errorMap := processCreateParams params |}.

Definition string_addCheck (c : ZodStringCheck) (s : ZodString) : ZodString :=
  {| string_checks := (string_checks s ++ [c])%list; string_errorMap := string_errorMap s |}.

(** [.min(n, message)], [.uuid(message)], [.regex(re, message)] and
    [.url(message)] on a string schema.  The [url] check asks the host
    whether [new URL(data)] returns; [parses] is that answer. *)
Definition min (n : nat) (message : string) : ZodString -> ZodString :=
  string_addCheck (check_min n message).
Definition uuid (message : string) : ZodString -> ZodString :=
  string_addCheck (check_uuid message).
Definition regex (re : RegExp) (message : string) : ZodString -> ZodString :=
  string_addCheck (check_regex re message).
Definition url (parses : string -> bool) (message : string) : ZodString -> ZodString :=
  string_addCheck (check_url parses message).

Definition isHexDigit (c : ascii) : bool :=
  isDigit c || inRange "a" "f" c || inRange "A" "F" c.

(** zod's [uuidRegex], flag [i]: five groups of 8, 4, 4, 4 and 12
    hexadecimal digits separated by hyphens (its [\b] assertions between a
    hexadecimal digit and a hyphen always hold). *)
Definition uuidRegex : RegExp :=
  let hex n := Repeat n (Class isHexDigit) in
  Seq (hex 8) (Seq (Char "-") (Seq (hex 4) (Seq (Char "-")
    (Seq (hex 4) (Seq (Char "-") (Seq (hex 4) (Seq (Char "-") (hex 12)))))))).

(** One iteration of the loop over [this._def.checks]. *)
Definition runStringCheck (data : string) (acc : ParseStatus * Issues)
    (c : ZodStringCheck) : ParseStatus * Issues :=
  let '(status, issues) := acc in
  match c with
  | check_min value message =>
      if (String.length data <? value)%nat
      then (dirty, addIssueWithMessage too_small message issues)
      else acc
  | check_uuid message =>
      if negb (test uuidRegex data)
      then (dirty, addIssueWithMessage invalid_string message issues)
      else acc
  | check_regex re message =>
      if negb (test re data)
      then (dirty, addIssueWithMessage invalid_string message issues)
      else acc
  | check_url parses message =>
      if negb (parses data)
      then (dirty, addIssueWithMessage invalid_string message issues)
      else acc
  end.

#[global] Instance ZodString_parse : ZodType ZodString string :=
  fun schema data issues =>
    match data with
    | JString s =>
        let '(status, issues') :=
          fold_left (runStringCheck s) (string_checks schema) (valid, issues) in
        (withStatus status s, issues')
    | _ =>
        (INVALID,
         addIssueToContext (string_errorMap schema) data
           (invalid_type_data "string" (getParsedType data)) issues)
    end.

(** ** ZodNumber *)

Inductive ZodNumberCheck : Type :=
| check_number_min (value : number) (inclusive : bool) (message : string).

Record ZodNumber : Type := {
  number_checks : list ZodNumberCheck;
  number_errorMap : option ZodErrorMap
}.

(** [z.number(params)] *)
Definition z_number (params : option RawCreateParams) : ZodNumber :=
  {| number_checks := []; number_errorMap := processCreateParams params |}.

(** [.positive(message)]: the check [min], value 0, not inclusive. *)
Definition positive (message : string) (s : ZodNumber) : ZodNumber :=
  {| number_checks := (number_checks s ++ [check_number_min zero false message])%list;
     number_errorMap := number_errorMap s |}.

Definition runNumberCheck (data : number) (acc : ParseStatus * Issues)
    (c : ZodNumberCheck) : ParseStatus * Issues :=
  let '(status, issues) := acc in
  match c with
  | check_number_min value inclusive message =>
      let tooSmall :=
        if inclusive then PrimFloat.ltb data value else PrimFloat.leb data value in
      if tooSmall
      then (dirty, addIssueWithMessage too_small message issues)
      else acc
  end.

#[global] Instance ZodNumber_parse : ZodType ZodNumber number :=
  fun schema data issues =>
    match data with
    | JNumber n =>
        if isNaN n then
          (INVALID,
           addIssueToContext (number_errorMap schema) data
             (invalid_type_data "number" (getParsedType data)) issues)
        else
          let '(status, issues') :=
            fold_left (runNumberCheck n) (number_checks schema) (valid, issues) in
          (withStatus status n, issues')
    | _ =>
        (INVALID,
         addIssueToContext (number_errorMap schema) data
           (invalid_type_data "number" (getParsedType data)) issues)
    end.

(** ** ZodBoolean *)

Record ZodBoolean : Type := {
  boolean_errorMap : option ZodErrorMap
}.

(** [z.boolean(params)] *)
Definition z_boolean (params : option RawCreateParams) : ZodBoolean :=
  {| boolean_errorMap := processCreateParams params |}.

#[global] Instance ZodBoolean_parse : ZodType ZodBoolean bool :=
  fun schema data issues =>
    match data with
    | JBoolean b => (OK b, issues)
    | _ =>
        (INVALID,
         addIssueToContext (boolean_errorMap schema) data
           (invalid_type_data "boolean" (getParsedType data)) issues)
    end.

(** ** ZodEnum *)

Record ZodEnum : Type := {
  values : list string;
  enum_errorMap : option ZodErrorMap
}.

(** [z.enum(values, params)] *)
Definition z_enum (vals : list string) (params : option RawCreateParams) : ZodEnum :=
  {| values := vals; enum_errorMap := processCreateParams params |}.

Definition includes (x : string) (xs : list string) : bool :=
  existsb (String.eqb x) xs.

#[global] Instance ZodEnum_parse : ZodType ZodEnum string :=
  fun schema data issues =>
    match data with
    | JString s =>
        if includes s (values schema) then (OK s, issues)
        else
          (INVALID,
           addIssueToContext (enum_errorMap schema) data
             (invalid_enum_value_data (values schema) s) issues)
    | _ =>
        (INVALID,
         addIssueToContext (enum_errorMap schema) data
           (invalid_type_data (joinValues (values schema)) (getParsedType data)) issues)
    end.

(** ** ZodOptional *)

Record ZodOptional (S : Type) : Type := {
  innerType : S
}.

(** [schema.optional()] *)
Definition optional {S : Type} (schema : S) : ZodOptional S :=
  {| innerType := schema |}.

#[global] Instance ZodOptional_parse {S O : Type} `{ZodType S O}
    : ZodType (ZodOptional S) (option O) :=
  fun schema data issues =>
    match data with
    | JUndefined => (OK None, issues)
    | _ =>
        match _parse (innerType schema) data issues with
        | (OK v, issues') => (OK (Some v), issues')
        | (DIRTY v, issues') => (DIRTY (Some v), issues')
        | (INVALID, issues') => (INVALID, issues')
        end
    end.

(** ** ZodEffects *)

Inductive Effect : Type -> Type -> Type :=
| refinement {A : Type} (check : A -> bool) (message : string) : Effect A A
| transformation {A B : Type} (f : A -> B) : Effect A B.

Record ZodEffects (S I O : Type) : Type := {
  schema : S;
  effect : Effect I O
}.

(** [schema.refine(check, message)] and [schema.transform(f)] *)
Definition refine {S I : Type} `{ZodType S I} (check : I -> bool) (message : string)
    (s : S) : ZodEffects S I I :=
  {| schema := s; effect := refinement check message |}.

Definition transform {S I O : Type} `{ZodType S I} (f : I -> O) (s : S)
    : ZodEffects S I O :=
  {| schema := s; effect := transformation f |}.

(** A refinement runs on a valid or dirty inner result, reports a
    [custom] issue with its message when the check fails, and keeps the
    inner value.  A transform runs on a valid base only; over a base that
    is not valid the parse is reported as not valid. *)
Definition runEffect {I O : Type} (e : Effect I O)
    : ParseReturn I * Issues -> ParseReturn O * Issues :=
  match e in Effect I' O' return ParseReturn I' * Issues -> ParseReturn O' * Issues with
  | refinement check message => fun inner =>
      match inner with
      | (INVALID, issues) => (INVALID, issues)
      | (OK v, issues) =>
          if check v then (OK v, issues)
          else (DIRTY v, addIssueWithMessage custom message issues)
      | (DIRTY v, issues) =>
          if check v then (DIRTY v, issues)
          else (DIRTY v, addIssueWithMessage custom message issues)
      end
  | transformation f => fun base =>
      match base with
      | (OK v, issues) => (OK (f v), issues)
      | (_, issues) => (INVALID, issues)
      end
  end.

#[global] Instance ZodEffects_parse {S I O : Type} `{ZodType S I}
    : ZodType (ZodEffects S I O) O :=
  fun s data issues => runEffect (effect s) (_parse (schema s) data issues).

(** ** ZodUnion of two options *)

Record ZodUnion (S1 S2 : Type) : Type := {
  options : S1 * S2;
  union_errorMap : option ZodErrorMap
}.

(** [z.union([a, b])] *)
Definition z_union {S1 S2 : Type} (a : S1) (b : S2) : ZodUnion S1 S2 :=
  {| options := (a, b); union_errorMap := None |}.

(** Each option is parsed in a child context with an issue list of its
    own; the first valid result is returned.  Failing that, the first
    dirty result is returned with the issues of its child context; failing
    that, one [invalid_union] issue is raised. *)
#[global] Instance ZodUnion_parse {S1 S2 O1 O2 : Type} `{ZodType S1 O1} `{ZodType S2 O2}
    : ZodType (ZodUnion S1 S2) (O1 + O2) :=
  fun s data issues =>
    let '(a, b) := options s in
    match _parse a data [] with
    | (OK v, _) => (OK (inl v), issues)
    | (r1, issues1) =>
        match _parse b data [] with
        | (OK v, _) => (OK (inr v), issues)
        | (r2, issues2) =>
            match r1, r2 with
            | DIRTY v, _ => (DIRTY (inl v), (issues ++ issues1)%list)
            | _, DIRTY v => (DIRTY (inr v), (issues ++ issues2)%list)
            | _, _ =>
                (INVALID,
                 addIssueToContext (union_errorMap s) data invalid_union_data issues)
            end
        end
    end.

(** A parser is framed when a validation neither reads nor rewrites the
    issues already in the parse context: it returns what it returns in a
    fresh context and pushes the same issues after the ones present. *)
Class Framed (S O : Type) {P : ZodType S O} : Prop :=
  framed : forall (s : S) (data : JsValue) (pre : Issues),
    _parse s data pre
    = (fst (_parse s data []), (pre ++ snd (_parse s data []))%list).
Arguments Framed S O {P}.
Arguments framed {S O P _} s data pre.

(** [SafeParseReturnType] *)
Inductive SafeParseReturn (O : Type) : Type :=
| success (data : O)
| failure (error : Issues).
Arguments success {O} data.
Arguments failure {O} error.

(** [schema.safeParse(data)]: a fresh context, success only when the
    result is valid. *)
Definition safeParse {S O : Type} `{ZodType S O} (schema : S) (data : JsValue)
    : SafeParseReturn O :=
  let '(result, issues) := _parse schema data [] in
  match result with
  | OK v => success v
  | _ => failure issues
  end.

End Zod.

(* ================================================================== *)
(** * src/index.ts *)
(* ================================================================== *)

(** Exported so extras can reuse consistent text. *)
Module FIELD_ERRORS.
Definition REQUIRED : string := "is required".
Definition STRING : string := "must be a string".
Definition NUMBER : string := "must be a number".
Definition BOOLEAN : string := "must be a boolean".
Definition UUID : string := "must be a valid UUID".
Definition ENUM : string := "must be one of:".
Definition DATE : string := "must be a valid date".
Definition URL : string := "must be a valid URL".
Definition SLUG_FORMAT : string :=
  "must contain only lowercase letters, numbers and hyphens".
Definition MOBILE : string := "must be a valid 10-digit mobile number".
Definition EMAIL : string := "must be a valid email address".
End FIELD_ERRORS.

Module Fragments.

Import Js Zod.

(** [interface CustomMessages] *)
Record CustomMessages : Type := {
  required : option string;
  invalid : option string;
  validation : option string
}.

(** The argument [customMessages?: CustomMessages | string], when given. *)
Inductive MessageArg : Type :=
| Text (s : string)
| PerClass (m : CustomMessages).

(** The empty object [{}]. *)
Definition noMessages : CustomMessages :=
  {| required := None; invalid := None; validation := None |}.

(** [a || b]: [a] when it is truthy (a non-empty string), else [b]. *)
Definition orOption (a b : option string) : option string :=
  match a with
  | Some (String _ _) => a
  | _ => b
  end.

Definition orString (a : option string) (b : string) : string :=
  match a with
  | Some (String _ _ as s) => s
  | _ => b
  end.

Notation "a ||? b" := (orOption a b) (at level 65, left associativity) : zod_scope.
Notation "a ||! b" := (orString a b) (at level 65, left associativity) : zod_scope.

(** A parameter with a default value: [label = d]. *)
Definition defaultTo (d : string) (arg : option string) : string :=
  match arg with
  | Some l => l
  | None => d
  end.

(** [/^[^\s@]+@[^\s@]+\.[^\s@]+$/] *)
Definition emailPattern : RegExp :=
  let notSpaceAt := Class (fun c => negb (isWhiteSpace c || Ascii.eqb c "@")) in
  Seq (Plus notSpaceAt)
    (Seq (Char "@") (Seq (Plus notSpaceAt) (Seq (Char ".") (Plus notSpaceAt)))).

Definition requiredString (label : option string) (customMessages : option MessageArg)
    : ZodString :=
  let label := defaultTo "This field" label in
  let messages :=
    match customMessages with
    | Some (Text s) => {| required := Some s; invalid := Some s; validation := Some s |}
    | Some (PerClass m) => m
    | None => noMessages
    end in
  z_string (Some {|
      errorMap := None;
      required_error := Some (required messages ||! label ++ " " ++ FIELD_ERRORS.REQUIRED);
      invalid_type_error := Some (invalid messages ||! label ++ " " ++ FIELD_ERRORS.STRING)
    |})
  |> min 1
       (validation messages ||? required messages
          ||! label ++ " " ++ FIELD_ERRORS.REQUIRED).

Definition optionalString (label : option string) (customMessages : option MessageArg)
    : ZodOptional ZodString :=
  let label := defaultTo "This field" label in
  let messages :=
    match customMessages with
    | Some (Text s) => {| required := None; invalid := Some s; validation := None |}
    | Some (PerClass m) => m
    | None => noMessages
    end in
  z_string (Some {|
      errorMap := None;
      required_error := None;
      invalid_type_error := Some (invalid messages ||! label ++ " " ++ FIELD_ERRORS.STRING)
    |})
  |> optional.

Definition requiredNumber (label : option string) (customMessages : option MessageArg)
    : ZodNumber :=
  let label := defaultTo "This field" label in
  let messages :=
    match customMessages with
    | Some (Text s) => {| required := Some s; invalid := Some s; validation := None |}
    | Some (PerClass m) => m
    | None => noMessages
    end in
  z_number (Some {|
      errorMap := None;
      required_error := Some (required messages ||! label ++ " " ++ FIELD_ERRORS.REQUIRED);
      invalid_type_error := Some (invalid messages ||! label ++ " " ++ FIELD_ERRORS.NUMBER)
    |}).

Definition positiveNumber (label : option string) (customMessages : option MessageArg)
    : ZodNumber :=
  let label := defaultTo "This field" label in
  let messages :=
    match customMessages with
    | Some (Text s) => {| required := None; invalid := Some s; validation := Some s |}
    | Some (PerClass m) => m
    | None => noMessages
    end in
  z_number (Some {|
      errorMap := None;
      required_error := None;
      invalid_type_error := Some (invalid messages ||! label ++ " " ++ FIELD_ERRORS.NUMBER)
    |})
  |> positive (validation messages ||! label ++ " must be positive").

Definition optionalNumber (label : option string) (customMessages : option MessageArg)
    : ZodOptional ZodNumber :=
  let label := defaultTo "This field" label in
  let messages :=
    match customMessages with
    | Some (Text s) => {| required := None; invalid := Some s; validation := None |}
    | Some (PerClass m) => m
    | None => noMessages
    end in
  z_number (Some {|
      errorMap := None;
      required_error := None;
      invalid_type_error := Some (invalid messages ||! label ++ " " ++ FIELD_ERRORS.NUMBER)
    |})
  |> optional.

Definition boolean (label : option string) (customMessages : option MessageArg)
    : ZodBoolean :=
  let label := defaultTo "This field" label in
  let messages :=
    match customMessages with
    | Some (Text s) => {| required := None; invalid := Some s; validation := None |}
    | Some (PerClass m) => m
    | None => noMessages
    end in
  z_boolean (Some {|
      errorMap := None;
      required_error := None;
      invalid_type_error := Some (invalid messages ||! label ++ " " ++ FIELD_ERRORS.BOOLEAN)
    |}).

Definition optionalBoolean (label : option string) (customMessages : option MessageArg)
    : ZodOptional ZodBoolean :=
  let label := defaultTo "This field" label in
  let messages :=
    match customMessages with
    | Some (Text s) => {| required := None; invalid := Some s; validation := None |}
    | Some (PerClass m) => m
    | None => noMessages
    end in
  z_boolean (Some {|
      errorMap := None;
      required_error := None;
      invalid_type_error := Some (invalid messages ||! label ++ " " ++ FIELD_ERRORS.BOOLEAN)
    |})
  |> optional.

Definition uuid (label : option string) (customMessages : option MessageArg)
    : ZodString :=
  let label := defaultTo "ID" label in
  let messages :=
    match customMessages with
    | Some (Text s) => {| required := Some s; invalid := Some s; validation := Some s |}
    | Some (PerClass m) => m
    | None => noMessages
    end in
  z_string (Some {|
      errorMap := None;
      required_error := Some (required messages ||! label ++ " " ++ FIELD_ERRORS.REQUIRED);
      invalid_type_error := Some (invalid messages ||! label ++ " " ++ FIELD_ERRORS.STRING)
    |})
  |> Zod.uuid (validation messages ||! label ++ " " ++ FIELD_ERRORS.UUID).

Definition optionalUUID (label : option string) (customMessages : option MessageArg)
    : ZodOptional ZodString :=
  uuid (Some (defaultTo "ID" label)) customMessages |> optional.

(** [options] is a non-empty tuple [[string, ...string[]]]; the error map
    answers every issue with the one message. *)
Definition Enum (options : list string) (label : option string)
    (customMessages : option MessageArg) : ZodEnum :=
  let label := defaultTo "This field" label in
  let messages :=
    match customMessages with
    | Some (Text s) => {| required := None; invalid := None; validation := Some s |}
    | Some (PerClass m) => m
    | None => noMessages
    end in
  z_enum options (Some {|
      errorMap := Some (fun _ _ _ =>
        validation messages
          ||! label ++ " " ++ FIELD_ERRORS.ENUM ++ " " ++ join ", " options);
      required_error := None;
      invalid_type_error := None
    |}).

Section HostDate.

(** [Date.parse], whose accepted formats are the host's. *)
Variable Date_parse : string -> number.

Definition dateString (label : option string) (customMessages : option MessageArg)
    : ZodEffects ZodString string string :=
  let label := defaultTo "Date" label in
  let messages :=
    match customMessages with
    | Some (Text s) => {| required := Some s; invalid := Some s; validation := Some s |}
    | Some (PerClass m) => m
    | None => noMessages
    end in
  z_string (Some {|
      errorMap := None;
      required_error := Some (required messages ||! label ++ " " ++ FIELD_ERRORS.REQUIRED);
      invalid_type_error := Some (invalid messages ||! label ++ " " ++ FIELD_ERRORS.STRING)
    |})
  |> refine (fun val => negb (isNaN (Date_parse val)))
       (validation messages ||! label ++ " " ++ FIELD_ERRORS.DATE).

Definition optionalDate (label : option string) (customMessages : option MessageArg)
    : ZodOptional (ZodEffects ZodString string string) :=
  dateString (Some (defaultTo "Date" label)) customMessages |> optional.

End HostDate.

Section HostURL.

(** [new URL(s)] returns (it does not throw). *)
Variable URL_parses : string -> bool.

Definition fileUrl (label : option string) (customMessages : option MessageArg)
    : ZodOptional ZodString :=
  let label := defaultTo "File URL" label in
  let messages :=
    match customMessages with
    | Some (Text s) => {| required := None; invalid := None; validation := Some s |}
    | Some (PerClass m) => m
    | None => noMessages
    end in
  z_string None
  |> url URL_parses (validation messages ||! label ++ " " ++ FIELD_ERRORS.URL)
  |> optional.

Definition imageUrl (label : option string) (customMessages : option MessageArg)
    : ZodOptional ZodString :=
  let label := defaultTo "Image URL" label in
  let messages :=
    match customMessages with
    | Some (Text s) => {| required := None; invalid := None; validation := Some s |}
    | Some (PerClass m) => m
    | None => noMessages
    end in
  z_string None
  |> url URL_parses (validation messages ||! label ++ " " ++ FIELD_ERRORS.URL)
  |> optional.

End HostURL.

Definition slug (label : option string) (customMessages : option MessageArg)
    : ZodOptional ZodString :=
  let label := defaultTo "Slug" label in
  let messages :=
    match customMessages with
    | Some (Text s) => {| required := None; invalid := Some s; validation := Some s |}
    | Some (PerClass m) => m
    | None => noMessages
    end in
  z_string (Some {|
      errorMap := None;
      required_error := None;
      invalid_type_error := Some (invalid messages ||! label ++ " " ++ FIELD_ERRORS.STRING)
    |})
  |> regex (Plus (Class (fun c => inRange "a" "z" c || isDigit c || Ascii.eqb c "-")))
       (validation messages ||! label ++ " " ++ FIELD_ERRORS.SLUG_FORMAT)
  |> optional.

Definition description : ZodOptional ZodString := optionalString (Some "Description") None.
Definition title : ZodString := requiredString (Some "Title") None.

Definition emailOrMobile (label : option string) (customMessages : option MessageArg)
    : ZodEffects ZodString string string :=
  let label := defaultTo "Identifier" label in
  let messages :=
    match customMessages with
    | Some (Text s) => {| required := Some s; invalid := Some s; validation := Some s |}
    | Some (PerClass m) => m
    | None => noMessages
    end in
  z_string (Some {|
      errorMap := None;
      required_error := Some (required messages ||! label ++ " " ++ FIELD_ERRORS.REQUIRED);
      invalid_type_error := Some (invalid messages ||! label ++ " " ++ FIELD_ERRORS.STRING)
    |})
  |> refine
       (fun val =>
          let isEmail := test emailPattern val in
          let isMobile := test (Repeat 10 (Class (inRange "0" "9"))) val in
          isEmail || isMobile)
       (validation messages
          ||! label ++ " " ++ FIELD_ERRORS.EMAIL ++ " or " ++ FIELD_ERRORS.MOBILE).

End Fragments.

(* ================================================================== *)
(** * src/extensions.ts *)
(* ================================================================== *)

Module Extensions.

Import Js Zod Fragments.

(** The expression [typeof msg === "string" ? msg : msg?.field || dflt]
    that the factories of this file repeat for each message. *)
Definition messageFor (field : CustomMessages -> option string)
    (msg : option MessageArg) (dflt : string) : string :=
  match msg with
  | Some (Text s) => s
  | Some (PerClass m) => field m ||! dflt
  | None => dflt
  end.

(** Trimmed required string *)
Definition requiredStringTrimmed (label : option string) (msg : option MessageArg)
    : ZodEffects ZodString string string :=
  requiredString (Some (defaultTo "This field" label)) msg
  |> transform (fun v => trim v).

(** Lowercased, trimmed email (normalized) *)
Definition emailNormalized (label : option string) (msg : option MessageArg)
    : ZodEffects (ZodEffects ZodString string string) string string :=
  let label := defaultTo "Email" label in
  requiredString (Some label) msg
  |> transform (fun v => toLowerCase (trim v))
  |> refine (fun v => test emailPattern v)
       (messageFor validation msg (label ++ " " ++ FIELD_ERRORS.EMAIL)).

(** [/^[a-z0-9\s-]+$/] *)
Definition slugSpacePattern : RegExp :=
  Plus (Class (fun c => inRange "a" "z" c || isDigit c || isWhiteSpace c || Ascii.eqb c "-")).

(** Slug (required) normalized: validate first with regex, then normalize *)
Definition requiredSlugNormalized (label : option string) (msg : option MessageArg)
    : ZodEffects ZodString string string :=
  let label := defaultTo "Slug" label in
  z_string (Some {|
      errorMap := None;
      required_error := None;
      invalid_type_error :=
        Some (messageFor invalid msg (label ++ " " ++ FIELD_ERRORS.STRING))
    |})
  |> regex slugSpacePattern
       (messageFor validation msg (label ++ " " ++ FIELD_ERRORS.SLUG_FORMAT))
  |> transform (fun v => toLowerCase (trim v)).

(** Slug (optional) normalized *)
Definition optionalSlugNormalized (label : option string) (msg : option MessageArg)
    : ZodOptional (ZodEffects ZodString string string) :=
  let label := defaultTo "Slug" label in
  z_string (Some {|
      errorMap := None;
      required_error := None;
      invalid_type_error :=
        Some (messageFor invalid msg (label ++ " " ++ FIELD_ERRORS.STRING))
    |})
  |> regex slugSpacePattern
       (messageFor validation msg (label ++ " " ++ FIELD_ERRORS.SLUG_FORMAT))
  |> transform (fun v => toLowerCase (trim v))
  |> optional.

(** Enum helpers *)
Definition enumFrom (options : list string) (label : option string)
    (msg : option MessageArg) : ZodEnum :=
  Enum options (Some (defaultTo "This field" label)) msg.

(** The tagged output of [emailOrMobileNormalized]. *)
Inductive IdentifierType : Set := email | mobile.

Record Identifier : Type := {
  type : IdentifierType;
  value : string
}.

(** [/^[6-9]\d{9}$/] *)
Definition indianMobilePattern : RegExp :=
  Seq (Class (inRange "6" "9")) (Repeat 9 (Class isDigit)).

(** [/[\s-]/g] as a class *)
Definition spaceOrHyphen (c : ascii) : bool := isWhiteSpace c || Ascii.eqb c "-".

(** Email/Mobile normalized (structured) *)
Definition emailOrMobileNormalized (label : option string) (msg : option MessageArg)
    : ZodEffects
        (ZodEffects
           (ZodEffects (ZodEffects ZodString string string) string string)
           string string)
        string Identifier :=
  let label := defaultTo "Identifier" label in
  z_string (Some {|
      errorMap := None;
      required_error :=
        Some (messageFor required msg (label ++ " " ++ FIELD_ERRORS.REQUIRED));
      invalid_type_error :=
        Some (messageFor invalid msg (label ++ " " ++ FIELD_ERRORS.STRING))
    |})
  |> transform (fun raw => removeAll spaceOrHyphen (trim raw))
  |> transform (fun raw => if startsWith "+91" raw then slice 3 raw else raw)
  |> refine
       (fun raw =>
          let isEmail := test emailPattern raw in
          let isMobile := test indianMobilePattern raw in
          isEmail || isMobile)
       (messageFor validation msg (label ++ " must be a valid email or mobile"))
  |> transform
       (fun raw =>
          let isEmail := test emailPattern raw in
          if isEmail
          then {| type := email; value := toLowerCase raw |}
          else {| type := mobile; value := raw |}).

(** India-specific validators *)
Definition pinCode (label : option string) (msg : option MessageArg) : ZodString :=
  let label := defaultTo "PIN Code" label in
  requiredString (Some label) msg
  |> regex (Repeat 6 (Class (inRange "0" "9")))
       (messageFor validation msg (label ++ " must be 6 digits")).

Definition inMobile (label : option string) (msg : option MessageArg)
    : ZodEffects
        (ZodEffects (ZodEffects ZodString string string) string string)
        string string :=
  let label := defaultTo "Mobile" label in
  requiredString (Some label) msg
  |> transform (fun v => removeAll spaceOrHyphen v)
  |> transform (fun v => if startsWith "+91" v then slice 3 v else v)
  |> refine (fun v => test indianMobilePattern v)
       (messageFor validation msg (label ++ " " ++ FIELD_ERRORS.MOBILE)).

Definition pan (label : option string) (msg : option MessageArg)
    : ZodEffects ZodString string string :=
  let label := defaultTo "PAN" label in
  let letter := Class (fun c => inRange "a" "z" c || inRange "A" "Z" c) in
  requiredString (Some label) msg
  |> regex (Seq (Repeat 5 letter) (Seq (Repeat 4 (Class isDigit)) letter))
       (messageFor validation msg (label ++ " must be a valid PAN"))
  |> transform (fun v => toLowerCase (trim v)).

Definition gstin (label : option string) (msg : option MessageArg)
    : ZodEffects ZodString string string :=
  let label := defaultTo "GSTIN" label in
  let alnum := Class (fun c => inRange "a" "z" c || isDigit c) in
  requiredString (Some label) msg
  |> regex
       (Seq (Repeat 2 (Class isDigit))
          (Seq (Repeat 10 alnum)
             (Seq (Class isDigit)
                (Seq (Class (fun c => Ascii.eqb c "z" || Ascii.eqb c "Z")) alnum))))
       (messageFor validation msg (label ++ " must be a valid GSTIN"))
  |> transform (fun v => toLowerCase (trim v)).

(** Money & currency helpers *)
Definition money (label : option string) (msg : option MessageArg)
    : ZodEffects
        (ZodEffects
           (ZodEffects
              (ZodEffects (ZodUnion ZodNumber ZodString) (number + string) number)
              number number)
           number number)
        number number :=
  let label := defaultTo "Amount" label in
  z_union (z_number None) (z_string None)
  |> transform (fun v => match v with inr s => Number s | inl n => n end)
  |> refine (fun n => isFinite n)
       (messageFor invalid msg (label ++ " " ++ FIELD_ERRORS.NUMBER))
  |> refine (fun n => geq n zero)
       (messageFor validation msg (label ++ " must be >= 0"))
  |> transform (fun n => PrimFloat.div (Math_round (PrimFloat.mul n 100)) 100).

(** Dates & ranges *)
Section HostDate.

Variable Date_parse : string -> number.

Definition isoDateTime (label : option string) (msg : option MessageArg)
    : ZodEffects ZodString string string :=
  let label := defaultTo "Date" label in
  requiredString (Some label) msg
  |> refine (fun v => negb (isNaN (Date_parse v)))
       (messageFor validation msg (label ++ " " ++ FIELD_ERRORS.DATE)).

End HostDate.

(** URL variants *)
Section HostURL.

Variable URL_parses : string -> bool.

Definition httpsUrl (label : option string) (msg : option MessageArg)
    : ZodEffects ZodString string string :=
  let label := defaultTo "URL" label in
  requiredString (Some label) msg
  |> url URL_parses (messageFor validation msg (label ++ " " ++ FIELD_ERRORS.URL))
  |> refine (fun v => startsWith "https://" v) (label ++ " must use https").

End HostURL.

Definition domain (label : option string) (msg : option MessageArg)
    : ZodEffects ZodString string string :=
  let label := defaultTo "Domain" label in
  let part := Plus (Class (fun c => inRange "a" "z" c || isDigit c || Ascii.eqb c "-")) in
  requiredString (Some label) msg
  |> regex (Seq part (Plus (Seq (Char ".") part)))
       (messageFor validation msg (label ++ " must be a valid domain"))
  |> transform (fun v => toLowerCase (trim v)).

End Extensions.

(* ================================================================== *)
(** * Failure classes *)
(* ================================================================== *)

Module Outcome.

Import Js Zod.

(** The failure classes of the specification, read off an issue: a
    missing value is the [invalid_type] issue raised on [undefined], a
    wrong type is any other [invalid_type] issue, and every check,
    refinement or enum mismatch is a validation failure. *)
Inductive FailureClass : Set := Required | InvalidType | Validation.

Definition failureClass (i : ZodIssue) : FailureClass :=
  match code i, received i with
  | invalid_type, Some ZodParsedType.undefined => Required
  | invalid_type, _ => InvalidType
  | _, _ => Validation
  end.

Definition FailureClass_eqb (a b : FailureClass) : bool :=
  match a, b with
  | Required, Required | InvalidType, InvalidType | Validation, Validation => true
  | _, _ => false
  end.

(** The parse fails with exactly one issue, of class [cls], whose
    message is [msg]. *)
Definition failsWith {O : Type} (cls : FailureClass) (msg : string)
    (r : SafeParseReturn O) : Prop :=
  exists i, r = failure [i] /\ failureClass i = cls /\ message i = msg.

(** Some issue of the failed parse has class [cls]. *)
Definition raises {O : Type} (cls : FailureClass) (r : SafeParseReturn O) : bool :=
  match r with
  | success _ => false
  | failure issues => existsb (fun i => FailureClass_eqb (failureClass i) cls) issues
  end.

(** The parse succeeds, or fails with exactly one issue and that issue
    is a wrong-type issue: nothing but the type was checked. *)
Definition onlyInvalidType {O : Type} (r : SafeParseReturn O) : bool :=
  match r with
  | success _ => true
  | failure [i] => FailureClass_eqb (failureClass i) InvalidType
  | failure _ => false
  end.

(** The input is present and its parsed type is not [t]. *)
Definition wrongType (t : ZodParsedType.t) (v : JsValue) : bool :=
  negb (parsedType_eqb (getParsedType v) ZodParsedType.undefined)
  && negb (parsedType_eqb (getParsedType v) t).

(** The default suffixes of the message catalog. *)
Definition catalog : list string :=
  [ FIELD_ERRORS.REQUIRED; FIELD_ERRORS.STRING; FIELD_ERRORS.NUMBER;
    FIELD_ERRORS.BOOLEAN; FIELD_ERRORS.UUID; FIELD_ERRORS.ENUM;
    FIELD_ERRORS.DATE; FIELD_ERRORS.URL; FIELD_ERRORS.SLUG_FORMAT;
    FIELD_ERRORS.MOBILE; FIELD_ERRORS.EMAIL ].

(** Rounding as the specification words it: to the nearest integer, a
    tie going away from zero.  To be compared with [Js.Math_round]. *)
Definition roundHalfAwayFromZero (x : number) : number :=
  match Prim2SF x with
  | S754_finite neg m e =>
      match e with
      | Zneg k =>
          (* floor (|x| + 1/2), with the sign of x *)
          let magnitude := Z.div (2 * Z.pos m + Z.pow_pos 2 k) (2 * Z.pow_pos 2 k) in
          ofInteger neg (if neg then (- magnitude)%Z else magnitude)
      | _ => x
      end
  | _ => x
  end.

(** A mobile number as the specification words it: ten digits in all,
    the first one in 6-9.  To be compared with
    [Extensions.indianMobilePattern]. *)
Definition tenDigitsFirst6to9 (s : string) : bool :=
  match s with
  | String c rest =>
      inRange "6" "9" c && (String.length s =? 10)%nat && allChars isDigit rest
  | EmptyString => false
  end.

End Outcome.


(* ================================================================== *)
(** * More of the zod runtime: preprocess, pipe, array, object *)
(* ================================================================== *)

Module ZodMore.

Import Js Zod.

(** ** [z.preprocess(fn, schema)]

    The function is applied to the input and the schema parses what it
    returns (neither function of the source adds an issue of its own). *)
Record ZodPreprocess (S : Type) : Type := {
  preprocess : JsValue -> JsValue;
  preprocessed : S
}.

Definition z_preprocess {S : Type} (fn : JsValue -> JsValue) (s : S) : ZodPreprocess S :=
  {| preprocess := fn; preprocessed := s |}.

#[global] Instance ZodPreprocess_parse {S O : Type} `{ZodType S O}
    : ZodType (ZodPreprocess S) O :=
  fun s data issues => _parse (preprocessed s) (preprocess s data) issues.

(** ** [a.pipe(b)]

    The value the first schema returns is the data of the second;
    [pipe_value] is that value as a JavaScript value.  The second schema
    runs on a valid first result only.  zod returns a dirty first result
    as it is; its value has the type of the first schema, so it is given
    here as [INVALID]: [safeParse] fails on both with the same issues, and
    no first schema of the source ([z.number()], [z.boolean()] under a
    preprocess) returns a dirty result. *)
Record ZodPipeline (A B I : Type) : Type := {
  pipe_in : A;
  pipe_out : B;
  pipe_value : I -> JsValue
}.

Definition pipe {A B I : Type} `{ZodType A I} (asValue : I -> JsValue) (b : B) (a : A)
    : ZodPipeline A B I :=
  {| pipe_in := a; pipe_out := b; pipe_value := asValue |}.

#[global] Instance ZodPipeline_parse {A B I O : Type} `{ZodType A I} `{ZodType B O}
    : ZodType (ZodPipeline A B I) O :=
  fun s data issues =>
    match _parse (pipe_in s) data issues with
    | (OK v, issues') => _parse (pipe_out s) (pipe_value s v) issues'
    | (_, issues') => (INVALID, issues')
    end.

(** ** ZodArray

    The index of an element is not recorded with the issues the element
    raises. *)
Record ZodArray (S : Type) : Type := {
  array_type : S;
  minLength : option (nat * string)
}.

(** [z.array(schema)] and [.min(n, message)] *)
Definition z_array {S : Type} (s : S) : ZodArray S :=
  {| array_type := s; minLength := None |}.

Definition array_min {S : Type} (n : nat) (message : string) (a : ZodArray S)
    : ZodArray S :=
  {| array_type := array_type a; minLength := Some (n, message) |}.

(** Every element is parsed, in order, in the one parse context. *)
Fixpoint parseItems {S O : Type} `{ZodType S O} (s : S) (items : list JsValue)
    (issues : Issues) : list (ParseReturn O) * Issues :=
  match items with
  | [] => ([], issues)
  | item :: rest =>
      let '(r, issues1) := _parse s item issues in
      let '(rs, issues2) := parseItems s rest issues1 in
      (r :: rs, issues2)
  end.

(** [ParseStatus.mergeArray(status, results)] *)
Fixpoint mergeArray {O : Type} (status : ParseStatus) (results : list (ParseReturn O))
    : ParseReturn (list O) :=
  match results with
  | [] => withStatus status []
  | INVALID :: _ => INVALID
  | OK v :: rest =>
      match mergeArray status rest with
      | OK vs => OK (v :: vs)
      | DIRTY vs => DIRTY (v :: vs)
      | INVALID => INVALID
      end
  | DIRTY v :: rest =>
      match mergeArray dirty rest with
      | OK vs => DIRTY (v :: vs)
      | DIRTY vs => DIRTY (v :: vs)
      | INVALID => INVALID
      end
  end.

#[global] Instance ZodArray_parse {S O : Type} `{ZodType S O}
    : ZodType (ZodArray S) (list O) :=
  fun schema data issues =>
    match data with
    | JArray items =>
        let '(status, issues1) :=
          match minLength schema with
          | Some (n, message) =>
              if (List.length items <? n)%nat
              then (dirty, addIssueWithMessage too_small message issues)
              else (valid, issues)
          | None => (valid, issues)
          end in
        let '(results, issues2) := parseItems (array_type schema) items issues1 in
        (mergeArray status results, issues2)
    | _ =>
        (INVALID,
         addIssueToContext None data
           (invalid_type_data "array" (getParsedType data)) issues)
    end.

(** ** ZodObject with two keys

    [z.object({k1: a, k2: b})]: unknown keys are stripped, a key that is
    absent is parsed as [undefined], and the output is the pair of the two
    values.  The key of a field is not recorded with the issues the field
    raises. *)
Record ZodObject2 (S1 S2 : Type) : Type := {
  key1 : string;
  shape1 : S1;
  key2 : string;
  shape2 : S2
}.

Definition z_object2 {S1 S2 : Type} (k1 : string) (a : S1) (k2 : string) (b : S2)
    : ZodObject2 S1 S2 :=
  {| key1 := k1; shape1 := a; key2 := k2; shape2 := b |}.

(** [data[key]] on an object whose keys are distinct. *)
Fixpoint getProperty (fields : list (string * JsValue)) (key : string) : JsValue :=
  match fields with
  | [] => JUndefined
  | (k, v) :: rest => if String.eqb k key then v else getProperty rest key
  end.

(** [ParseStatus.mergeObjectSync] on the two fields. *)
Definition mergeObject2 {O1 O2 : Type} (r1 : ParseReturn O1) (r2 : ParseReturn O2)
    : ParseReturn (O1 * O2) :=
  match r1, r2 with
  | INVALID, _ | _, INVALID => INVALID
  | OK v1, OK v2 => OK (v1, v2)
  | OK v1, DIRTY v2 | DIRTY v1, OK v2 | DIRTY v1, DIRTY v2 => DIRTY (v1, v2)
  end.

#[global] Instance ZodObject2_parse {S1 S2 O1 O2 : Type} `{ZodType S1 O1} `{ZodType S2 O2}
    : ZodType (ZodObject2 S1 S2) (O1 * O2) :=
  fun schema data issues =>
    match data with
    | JObject fields =>
        let '(r1, issues1) :=
          _parse (shape1 schema) (getProperty fields (key1 schema)) issues in
        let '(r2, issues2) :=
          _parse (shape2 schema) (getProperty fields (key2 schema)) issues1 in
        (mergeObject2 r1 r2, issues2)
    | _ =>
        (INVALID,
         addIssueToContext None data
           (invalid_type_data "object" (getParsedType data)) issues)
    end.

End ZodMore.

(* ================================================================== *)
(** * src/extensions.ts, continued *)
(* ================================================================== *)

Module MoreExtensions.

Import Js Zod ZodMore Fragments Extensions.

(** [v === s] and [v === n] for a string and a number literal. *)
Definition isTheString (s : string) (v : JsValue) : bool :=
  match v with
  | JString t => String.eqb t s
  | _ => false
  end.

Definition isTheNumber (n : number) (v : JsValue) : bool :=
  match v with
  | JNumber m => PrimFloat.eqb m n
  | _ => false
  end.

Section HostToNumber.

(** [Number(v)] on an array or an object goes through the host's
    conversion of the object to a primitive; it is a parameter. *)
Variable ToNumber_object : JsValue -> number.

(** [Number(v)] *)
Definition ToNumber (v : JsValue) : number :=
  match v with
  | JUndefined => nan
  | JNull => zero
  | JBoolean b => if b then 1%float else zero
  | JNumber n => n
  | JString s => Number s
  | JArray _ | JObject _ => ToNumber_object v
  end.

(** tiny local helpers *)
Definition coerceNumber : ZodPreprocess ZodNumber :=
  z_preprocess
    (fun v =>
       match v with
       | JUndefined | JNull => JUndefined
       | _ => if isTheString "" v then JUndefined else JNumber (ToNumber v)
       end)
    (z_number None).

(** Optional number coercion ("" -> undefined, "12" -> 12) *)
Definition optionalNumberCoerce (label : option string) (msg : option MessageArg)
    : ZodPipeline (ZodPreprocess ZodNumber) (ZodOptional ZodNumber) number :=
  coerceNumber
  |> pipe JNumber (optionalNumber (Some (defaultTo "This field" label)) msg).

End HostToNumber.

Definition coerceBoolean : ZodPreprocess ZodBoolean :=
  z_preprocess
    (fun v =>
       match v with
       | JBoolean _ => v
       | _ =>
           if isTheString "true" v || isTheString "1" v || isTheNumber 1%float v
           then JBoolean true
           else if isTheString "false" v || isTheString "0" v || isTheNumber 0%float v
                then JBoolean false
                else v
       end)
    (z_boolean None).

(** Boolean coercion *)
Definition booleanCoerce (label : option string) (msg : option MessageArg)
    : ZodPipeline (ZodPreprocess ZodBoolean) ZodBoolean bool :=
  coerceBoolean
  |> pipe JBoolean (boolean (Some (defaultTo "This field" label)) msg).

Section HostDate.

Variable Date_parse : string -> number.

(** [new Date(a) <= new Date(b)] and [new Date(a) > new Date(b)]: the
    time values are compared, and a comparison with NaN is false. *)
Definition dateRange
    : ZodEffects
        (ZodObject2 (ZodEffects ZodString string string)
                    (ZodEffects ZodString string string))
        (string * string) (string * string) :=
  z_object2 "start" (isoDateTime Date_parse (Some "Start date") None)
            "end" (isoDateTime Date_parse (Some "End date") None)
  |> refine (fun r => PrimFloat.leb (Date_parse (fst r)) (Date_parse (snd r)))
       "Start date must be before or equal to end date".

Definition dateAfter (minISO : string) (label : option string)
    : ZodEffects (ZodEffects ZodString string string) string string :=
  let label := defaultTo "Date" label in
  isoDateTime Date_parse (Some label) None
  |> refine (fun v => gt (Date_parse v) (Date_parse minISO))
       (label ++ " must be after " ++ minISO).

End HostDate.

(** Arrays *)
Definition nonEmptyArrayOf {S O : Type} `{ZodType S O} (schema : S)
    (label : option string) : ZodArray S :=
  let label := defaultTo "Items" label in
  z_array schema |> array_min 1 (label ++ " must contain at least 1 item").

(** Brands *)
Definition brandedUuid (brand : string) (label : option string)
    : ZodEffects ZodString string string :=
  let label := defaultTo brand label in
  requiredString (Some label) None
  |> Zod.uuid (label ++ " " ++ FIELD_ERRORS.UUID)
  |> transform (fun v => v).

End MoreExtensions.

(* ================================================================== *)
(** * Formats in words *)
(* ================================================================== *)

Module Formats.

Import Js.

Definition isLower (c : ascii) : bool := inRange "a" "z" c.
Definition isUpper (c : ascii) : bool := inRange "A" "Z" c.
Definition isLetter (c : ascii) : bool := isLower c || isUpper c.
Definition isLowerAlnum (c : ascii) : bool := isLower c || isDigit c.
Definition isSlugChar (c : ascii) : bool := isLower c || isDigit c || Ascii.eqb c "-".
Definition notWhiteSpace (c : ascii) : bool := negb (isWhiteSpace c).

(** Every class of the pattern is included in [q]. *)
Fixpoint classesWithin (q : ascii -> bool) (r : RegExp) : Prop :=
  match r with
  | Never | Empty => True
  | Class p => forall c, p c = true -> q c = true
  | Seq r1 r2 | Alt r1 r2 => classesWithin q r1 /\ classesWithin q r2
  | Star r1 => classesWithin q r1
  end.

(** Every class of the pattern is closed under [f]. *)
Fixpoint classesClosed (f : ascii -> ascii) (r : RegExp) : Prop :=
  match r with
  | Never | Empty => True
  | Class p => forall c, p c = true -> p (f c) = true
  | Seq r1 r2 | Alt r1 r2 => classesClosed f r1 /\ classesClosed f r2
  | Star r1 => classesClosed f r1
  end.

End Formats.
(* ================================================================== *)
(** * The exposed surface *)
(* ================================================================== *)

Module Surface.

Import Js Zod ZodMore Fragments Extensions MoreExtensions.

(** A validated output as a JavaScript value. *)
Class ToJs (O : Type) : Type := toJs : O -> JsValue.

#[global] Instance string_ToJs : ToJs string := JString.
#[global] Instance number_ToJs : ToJs number := JNumber.
#[global] Instance bool_ToJs : ToJs bool := JBoolean.
#[global] Instance option_ToJs {O : Type} `{ToJs O} : ToJs (option O) :=
  fun o => match o with Some v => toJs v | None => JUndefined end.
#[global] Instance Identifier_ToJs : ToJs Identifier :=
  fun r =>
    JObject [ ("type", JString match type r with email => "email" | mobile => "mobile" end);
              ("value", JString (value r)) ].

(** A constructed fragment: a schema of some class together with the
    parser of that class. *)
Record Fragment : Type := {
  schemaType : Type;
  outputType : Type;
  fragment : schemaType;
  fragmentParse : ZodType schemaType outputType;
  fragmentToJs : ToJs outputType
}.

Definition pack {S O : Type} `{ZodType S O} `{ToJs O} (s : S) : Fragment :=
  {| fragment := s; fragmentParse := _; fragmentToJs := _ |}.

Definition mapReturn {A B : Type} (f : A -> B) (r : ParseReturn A) : ParseReturn B :=
  match r with
  | OK v => OK (f v)
  | DIRTY v => DIRTY (f v)
  | INVALID => INVALID
  end.

(** One validation of [data] against the fragment, in a parse context
    whose issue list is [issues]. *)
Definition validate (f : Fragment) (data : JsValue) (issues : Issues)
    : ParseReturn JsValue * Issues :=
  let '(r, issues') := @_parse _ _ (fragmentParse f) (fragment f) data issues in
  (mapReturn (@toJs _ (fragmentToJs f)) r, issues').

(** [fragment.safeParse(data)] on a constructed fragment. *)
Definition safeValidate (f : Fragment) (data : JsValue) : SafeParseReturn JsValue :=
  match validate f data [] with
  | (OK v, _) => success v
  | (_, issues) => failure issues
  end.

(** The exported factories that take [(label, msg)]: the fifteen of
    [src/index.ts] and the fifteen of [src/extensions.ts], in source
    order.  ([Enum], [enumFrom] and [enumWithLabels] take the options
    first; [imageUrlStrict], [dateAfter], [nonEmptyArrayOf],
    [uniqueArrayBy] and [brandedUuid] take no [msg].) *)
Inductive Factory : Set :=
| f_requiredString | f_optionalString | f_requiredNumber | f_positiveNumber
| f_optionalNumber | f_boolean | f_optionalBoolean | f_uuid | f_optionalUUID
| f_dateString | f_optionalDate | f_fileUrl | f_imageUrl | f_slug | f_emailOrMobile
| f_requiredStringTrimmed | f_emailNormalized | f_optionalNumberCoerce
| f_booleanCoerce | f_requiredSlugNormalized | f_optionalSlugNormalized
| f_emailOrMobileNormalized | f_pinCode | f_pan | f_gstin | f_inMobile | f_money
| f_isoDateTime | f_httpsUrl | f_domain.

Section Host.

Variable Date_parse : string -> number.
Variable URL_parses : string -> bool.
Variable ToNumber_object : JsValue -> number.

(** The call [f(label, msg)]. *)
Definition construct (f : Factory) (label : option string) (msg : option MessageArg)
    : Fragment :=
  match f with
  | f_requiredString => pack (requiredString label msg)
  | f_optionalString => pack (optionalString label msg)
  | f_requiredNumber => pack (requiredNumber label msg)
  | f_positiveNumber => pack (positiveNumber label msg)
  | f_optionalNumber => pack (optionalNumber label msg)
  | f_boolean => pack (boolean label msg)
  | f_optionalBoolean => pack (optionalBoolean label msg)
  | f_uuid => pack (Fragments.uuid label msg)
  | f_optionalUUID => pack (optionalUUID label msg)
  | f_dateString => pack (dateString Date_parse label msg)
  | f_optionalDate => pack (optionalDate Date_parse label msg)
  | f_fileUrl => pack (fileUrl URL_parses label msg)
  | f_imageUrl => pack (imageUrl URL_parses label msg)
  | f_slug => pack (slug label msg)
  | f_emailOrMobile => pack (emailOrMobile label msg)
  | f_requiredStringTrimmed => pack (requiredStringTrimmed label msg)
  | f_emailNormalized => pack (emailNormalized label msg)
  | f_optionalNumberCoerce => pack (optionalNumberCoerce ToNumber_object label msg)
  | f_booleanCoerce => pack (booleanCoerce label msg)
  | f_requiredSlugNormalized => pack (requiredSlugNormalized label msg)
  | f_optionalSlugNormalized => pack (optionalSlugNormalized label msg)
  | f_emailOrMobileNormalized => pack (emailOrMobileNormalized label msg)
  | f_pinCode => pack (pinCode label msg)
  | f_pan => pack (pan label msg)
  | f_gstin => pack (gstin label msg)
  | f_inMobile => pack (inMobile label msg)
  | f_money => pack (money label msg)
  | f_isoDateTime => pack (isoDateTime Date_parse label msg)
  | f_httpsUrl => pack (httpsUrl URL_parses label msg)
  | f_domain => pack (domain label msg)
  end.

End Host.

(** The primitive type a factory's fragment validates, and the catalog
    suffix of its wrong-type message. *)
Definition baseType (f : Factory) : ZodParsedType.t :=
  match f with
  | f_requiredNumber | f_positiveNumber | f_optionalNumber | f_optionalNumberCoerce
  | f_money =>
      ZodParsedType.number
  | f_boolean | f_optionalBoolean | f_booleanCoerce => ZodParsedType.boolean
  | _ => ZodParsedType.string
  end.

Definition typeSuffix (f : Factory) : string :=
  match baseType f with
  | ZodParsedType.number => FIELD_ERRORS.NUMBER
  | ZodParsedType.boolean => FIELD_ERRORS.BOOLEAN
  | _ => FIELD_ERRORS.STRING
  end.

(** The factories whose type check is made by a schema that was given no
    invalid-type message: the bare [z.string()] of [fileUrl] and
    [imageUrl], the [z.number()] and [z.boolean()] under the preprocess of
    the two coercion variants, and the union of [money]. *)
Definition unlabelledTypeCheck : list Factory :=
  [f_fileUrl; f_imageUrl; f_optionalNumberCoerce; f_booleanCoerce; f_money].

End Surface.

(* ================================================================== *)
(** * Properties of the runtime model *)
(* ================================================================== *)

Import Js Zod ZodMore Fragments Extensions MoreExtensions Outcome Surface.

Unset Implicit Arguments.

(** ** Regular expressions: the matcher decides the language *)

Lemma nullable_Matches (r : RegExp) : nullable r = true <-> Matches r "".
Proof.
  induction r; simpl; split; intro Hm.
  - discriminate.
  - inversion Hm.
  - constructor.
  - reflexivity.
  - discriminate.
  - inversion Hm.
  - apply andb_prop in Hm as [H1 H2].
    change "" with ("" ++ ""). constructor; [apply IHr1 | apply IHr2]; assumption.
  - inversion Hm as [| |r1' r2' s1 s2 Hm1 Hm2 Heq Hs| | | |]; subst.
    destruct s1; [|discriminate]. simpl in Hs; subst.
    apply andb_true_intro; split; [apply IHr1 | apply IHr2]; assumption.
  - apply orb_prop in Hm as [H|H]; [apply MAltL, IHr1 | apply MAltR, IHr2]; assumption.
  - apply orb_true_intro.
    inversion Hm; subst; [left; apply IHr1 | right; apply IHr2]; assumption.
  - constructor.
  - reflexivity.
Qed.

Lemma Matches_Star_app (r : RegExp) (s1 s2 : string) :
  Matches r s1 -> Matches (Star r) s2 -> Matches (Star r) (s1 ++ s2).
Proof.
  intros H1 H2. destruct s1 as [|c s1]; [exact H2 | now constructor].
Qed.

Lemma derive_Matches (r : RegExp) :
  forall c s, Matches (derive c r) s <-> Matches r (String c s).
Proof.
  induction r; intros c s; simpl.
  - split; intro Hm; inversion Hm.
  - split; intro Hm; inversion Hm.
  - destruct (p c) eqn:Hp; split; intro Hm.
    + inversion Hm; subst. now constructor.
    + inversion Hm; subst. constructor.
    + inversion Hm.
    + inversion Hm; subst. congruence.
  - split.
    + intro Hm. destruct (nullable r1) eqn:Hn.
      * inversion Hm as [| | |r1' r2' s' Hl|r1' r2' s' Hr| |]; subst.
        -- inversion Hl as [| |r1' r2' s1 s2 Hm1 Hm2| | | |]; subst.
           change (String c (s1 ++ s2)) with (String c s1 ++ s2).
           constructor; [now apply IHr1 | assumption].
        -- change (String c s) with ("" ++ String c s).
           constructor; [now apply nullable_Matches | now apply IHr2].
      * inversion Hm as [| |r1' r2' s1 s2 Hm1 Hm2| | | |]; subst.
        change (String c (s1 ++ s2)) with (String c s1 ++ s2).
        constructor; [now apply IHr1 | assumption].
    + intro Hm. remember (String c s) as cs eqn:Hcs.
      inversion Hm as [| |r1' r2' s1 s2 Hm1 Hm2| | | |]; subst.
      destruct s1 as [|c1 s1]; simpl in *.
      * subst s2. apply nullable_Matches in Hm1. rewrite Hm1.
        apply MAltR. now apply IHr2.
      * match goal with H : String _ _ = String _ _ |- _ => injection H as Hc Hs end.
        subst c1 s.
        assert (Hd : Matches (Seq (derive c r1) r2) (s1 ++ s2))
          by (constructor; [now apply IHr1 | assumption]).
        destruct (nullable r1); [now apply MAltL | assumption].
  - split; intro Hm.
    + inversion Hm; subst; [apply MAltL, IHr1 | apply MAltR, IHr2]; assumption.
    + inversion Hm; subst; [apply MAltL, IHr1 | apply MAltR, IHr2]; assumption.
  - split; intro Hm.
    + inversion Hm as [| |r1' r2' s1 s2 Hm1 Hm2| | | |]; subst.
      change (String c (s1 ++ s2)) with (String c s1 ++ s2).
      constructor; [now apply IHr | assumption].
    + remember (String c s) as cs eqn:Hcs.
      inversion Hm as [| | | | | |r' c' s1 s2 Hm1 Hm2]; subst; try discriminate.
      match goal with H : _ = String c s |- _ =>
        simpl in H; injection H as Hc Hs end.
      subst c' s.
      constructor; [now apply IHr | assumption].
Qed.

(** [test] decides whole-string membership in the pattern's language. *)
Lemma test_Matches (s : string) : forall r, test r s = true <-> Matches r s.
Proof.
  induction s as [|c s IH]; intro r; simpl.
  - apply nullable_Matches.
  - rewrite IH. apply derive_Matches.
Qed.

Lemma Matches_Class_inv (p : ascii -> bool) (s : string) :
  Matches (Class p) s -> exists c, s = String c "" /\ p c = true.
Proof. intro Hm. inversion Hm; subst. eauto. Qed.

(** [[p]{n}] matches the strings of [n] code units of the class. *)
Lemma Matches_Repeat_Class (p : ascii -> bool) (n : nat) :
  forall s, Matches (Repeat n (Class p)) s <-> String.length s = n /\ allChars p s = true.
Proof.
  induction n as [|n IH]; intro s; simpl.
  - split.
    + intro Hm. inversion Hm; subst. split; reflexivity.
    + intros [Hl _]. destruct s; [constructor | discriminate].
  - split.
    + intro Hm. inversion Hm as [| |r1 r2 s1 s2 Hm1 Hm2| | | |]; subst.
      apply Matches_Class_inv in Hm1 as (c & -> & Hp).
      apply IH in Hm2 as [Hl Ha]. simpl. rewrite Hp, Ha, Hl. split; reflexivity.
    + intros [Hl Ha]. destruct s as [|c s]; [discriminate|].
      simpl in Hl, Ha. apply andb_prop in Ha as [Hp Ha].
      change (String c s) with (String c "" ++ s).
      constructor; [now constructor | apply IH; split; congruence].
Qed.

(** The mobile pattern of the normalized identifier accepts exactly the
    ten-digit strings whose first digit is in 6-9. *)
Lemma indianMobilePattern_spec (s : string) :
  test indianMobilePattern s = tenDigitsFirst6to9 s.
Proof.
  apply Bool.eq_true_iff_eq. rewrite test_Matches. unfold indianMobilePattern.
  split.
  - intro Hm. inversion Hm as [| |r1 r2 s1 s2 Hm1 Hm2| | | |]; subst.
    apply Matches_Class_inv in Hm1 as (c & -> & Hp).
    apply (Matches_Repeat_Class isDigit 9) in Hm2 as [Hl Ha].
    simpl. rewrite Hp, Hl, Ha. reflexivity.
  - destruct s as [|c s]; simpl; [discriminate|].
    intro H. apply andb_prop in H as [H Ha]. apply andb_prop in H as [Hp Hl].
    change (String c s) with (String c "" ++ s).
    constructor; [now constructor|].
    apply (Matches_Repeat_Class isDigit 9). split; [|assumption].
    apply Nat.eqb_eq in Hl. congruence.
Qed.

(** ** Strings *)

Lemma trimEnd_whitespace (s : string) :
  allChars isWhiteSpace s = true -> trimEnd s = "".
Proof.
  induction s as [|c s IH]; simpl; [reflexivity|].
  intro H. apply andb_prop in H as [Hc Hs].
  rewrite (IH Hs), Hc. reflexivity.
Qed.

Lemma trimStart_whitespace (s : string) :
  allChars isWhiteSpace s = true -> trimStart s = "".
Proof.
  induction s as [|c s IH]; simpl; [reflexivity|].
  intro H. apply andb_prop in H as [Hc Hs].
  rewrite Hc. exact (IH Hs).
Qed.

(** A string of white space only trims to the empty string. *)
Lemma trim_whitespace (s : string) :
  allChars isWhiteSpace s = true -> trim s = "".
Proof.
  intro H. unfold trim. rewrite (trimStart_whitespace s H). reflexivity.
Qed.

(** ** Numbers *)

Lemma Prim2SF_zero : Prim2SF zero = S754_zero false.
Proof. reflexivity. Qed.

Lemma isNaN_spec (n : number) : isNaN n = true <-> Prim2SF n = S754_nan.
Proof.
  unfold isNaN, is_nan. rewrite FloatAxioms.eqb_spec. unfold SFeqb.
  destruct (Prim2SF n) as [s| s| |s m e]; simpl.
  - split; discriminate.
  - destruct s; simpl; split; discriminate.
  - split; reflexivity.
  - destruct s; rewrite Z.compare_refl, Pos.compare_cont_refl; simpl; split; discriminate.
Qed.

(** On a number, [n <= 0] is the negation of [n > 0]. *)
Lemma leb_zero_not_gt (n : number) :
  isNaN n = false -> PrimFloat.leb n zero = negb (gt n zero).
Proof.
  intro Hn. unfold gt. rewrite leb_spec, ltb_spec, Prim2SF_zero.
  destruct (Prim2SF n) as [s| s| |s m e] eqn:E.
  - reflexivity.
  - destruct s; reflexivity.
  - apply isNaN_spec in E. congruence.
  - destruct s; reflexivity.
Qed.

Lemma geq_zero_sign (n : number) (m : BinNums.positive) (e : Z) :
  geq n zero = true -> Prim2SF n <> S754_finite true m e.
Proof.
  unfold geq. rewrite leb_spec, Prim2SF_zero. intros H E. rewrite E in H. discriminate.
Qed.

Lemma binary_round_aux_sign (sx : bool) (mx ex : Z) (lx : location) (m : BinNums.positive) (e : Z) :
  binary_round_aux prec emax sx mx ex lx = S754_finite (negb sx) m e -> False.
Proof.
  unfold binary_round_aux.
  destruct (shr_fexp prec emax mx ex lx) as [mrs' e'].
  destruct (shr_fexp prec emax _ e' loc_Exact) as [mrs'' e''].
  destruct (shr_m mrs''); try discriminate.
  destruct (e'' <=? emax - prec)%Z; try discriminate.
  destruct sx; discriminate.
Qed.

(** The product of a non-negative number and 100 is not a negative
    finite number. *)
Lemma scaled_not_negative (n : number) (m : BinNums.positive) (e : Z) :
  geq n zero = true -> Prim2SF (n * 100)%float <> S754_finite true m e.
Proof.
  intros Hge E. rewrite mul_spec in E.
  change (Prim2SF 100%float) with (S754_finite false 7036874417766400 (-46)) in E.
  destruct (Prim2SF n) as [s| s| |s mn en] eqn:En; simpl in E; try discriminate.
  destruct s.
  - exact (geq_zero_sign n _ _ Hge En).
  - exact (binary_round_aux_sign false _ _ _ _ _ E).
Qed.

(** [Math.round] rounds a tie towards +Infinity; away from negative
    finite numbers this is rounding half away from zero. *)
Lemma Math_round_half_away (y : number) :
  (forall m e, Prim2SF y <> S754_finite true m e) ->
  Math_round y = roundHalfAwayFromZero y.
Proof.
  intro H. unfold Math_round, roundHalfAwayFromZero.
  destruct (Prim2SF y) as [s| s| |s m e]; try reflexivity.
  destruct s; [exfalso; exact (H m e eq_refl) | reflexivity].
Qed.

Example Number_examples :
  Number "12.345" = 12.345%float /\ Number " 42 " = 42%float /\
  Number "" = 0%float /\ Number "1e3" = 1000%float /\ Number ".5" = 0.5%float /\
  Number "0x10" = 16%float /\ Number "-Infinity" = neg_infinity /\
  Number "abc" = nan /\ Number "1e" = nan /\ Number "12px" = nan.
Proof. repeat split. Qed.

Example Math_round_examples :
  Math_round 1234.5%float = 1235%float /\ Math_round 2.5%float = 3%float /\
  Math_round 0.49999999999999994%float = 0%float /\
  Math_round (-0.5)%float = neg_zero /\ Math_round 1e300%float = 1e300%float.
Proof. repeat split. Qed.

(** The two roundings differ on a negative tie. *)
Example Math_round_negative_tie :
  Math_round (-2.5)%float = (-2)%float /\ roundHalfAwayFromZero (-2.5)%float = (-3)%float.
Proof. split; reflexivity. Qed.

(* ================================================================== *)
(** * Properties of the fragments *)
(* ================================================================== *)

(** The class of an [invalid_type] issue raised on a present value. *)
Lemma failureClass_wrongType (t : ZodParsedType.t) (v : JsValue) (msg : string) :
  wrongType t v = true ->
  failureClass {| code := invalid_type; received := Some (getParsedType v); message := msg |}
  = InvalidType.
Proof.
  unfold wrongType, failureClass. simpl.
  destruct (getParsedType v); simpl; intro H; try reflexivity; discriminate.
Qed.

(** Runs the parser of a composed schema on the input at hand. *)
Ltac run_parse :=
  unfold safeParse;
  repeat progress
    (unfold _parse, ZodEffects_parse, ZodOptional_parse, ZodUnion_parse,
       ZodString_parse, ZodNumber_parse, ZodBoolean_parse, ZodEnum_parse;
     simpl).

(** The same, unfolding the pipeline only: the functions applied to the
    data stay folded. *)
Ltac run_pipeline :=
  cbv beta iota zeta delta
    [safeParse _parse ZodEffects_parse ZodOptional_parse ZodUnion_parse
     ZodString_parse ZodNumber_parse ZodBoolean_parse ZodEnum_parse
     runEffect effect schema innerType options transform refine optional
     z_union z_number z_string z_boolean z_enum
     string_checks string_errorMap number_checks number_errorMap
     boolean_errorMap enum_errorMap values union_errorMap
     min Zod.uuid regex string_addCheck positive
     fold_left runStringCheck runNumberCheck withStatus
     addIssueWithMessage addIssueToContext makeIssue app].

(** Case analysis on the conditions the goal branches on. *)
Ltac case_conditions :=
  repeat match goal with
         | |- context [if ?b then _ else _] => destruct b eqn:?
         end.

(** Solves [failsWith cls msg (safeParse f v)] once the parse computes. *)
Ltac fails_by_computation :=
  eexists; split; [reflexivity | split; reflexivity].

(** C1: [requiredString("X", "custom")]: a missing value, a present value that
    is not a string, and the empty string each fail with exactly one issue
    whose message is "custom", in the classes Required, InvalidType and
    Validation respectively. *)
Theorem C1_requiredString_text_override_all_classes :
  let f := requiredString (Some "X") (Some (Text "custom")) in
  failsWith Required "custom" (safeParse f JUndefined) /\
  (forall v, wrongType ZodParsedType.string v = true ->
     failsWith InvalidType "custom" (safeParse f v)) /\
  failsWith Validation "custom" (safeParse f (JString "")).
Proof.
  cbv zeta. split; [fails_by_computation | split; [| fails_by_computation]].
  intros v H. unfold failsWith, safeParse.
  destruct v as [| |b|n|s|items|fields]; try discriminate H;
    (eexists; split; [reflexivity | split; [|reflexivity]]);
    apply (failureClass_wrongType ZodParsedType.string); exact H.
Qed.

Lemma C1_witness :
  wrongType ZodParsedType.string (JNumber 3%float) = true /\
  failsWith InvalidType "custom"
    (safeParse (requiredString (Some "X") (Some (Text "custom"))) (JNumber 3%float)).
Proof.
  split; [reflexivity |].
  apply (proj1 (proj2 C1_requiredString_text_override_all_classes)). reflexivity.
Defined.

(** C7: [requiredString(label, {validation: "bad"})]: a missing value still
    fails with the default "label is required", a present value that is not a
    string with the default "label must be a string", and only the empty
    string fails with "bad". *)
Theorem C7_requiredString_validation_only_override : forall L : string,
  let f := requiredString (Some L)
             (Some (PerClass {| required := None; invalid := None;
                                validation := Some "bad" |})) in
  failsWith Required (L ++ " is required") (safeParse f JUndefined) /\
  (forall v, wrongType ZodParsedType.string v = true ->
     failsWith InvalidType (L ++ " must be a string") (safeParse f v)) /\
  failsWith Validation "bad" (safeParse f (JString "")).
Proof.
  intro L. cbv zeta. split; [fails_by_computation | split; [| fails_by_computation]].
  intros v H. unfold failsWith, safeParse.
  destruct v as [| |b|n|s|items|fields]; try discriminate H;
    (eexists; split; [reflexivity | split; [|reflexivity]]);
    apply (failureClass_wrongType ZodParsedType.string); exact H.
Qed.

Lemma C7_witness :
  wrongType ZodParsedType.string (JBoolean true) = true /\
  failsWith InvalidType "Name must be a string"
    (safeParse
       (requiredString (Some "Name")
          (Some (PerClass {| required := None; invalid := None;
                             validation := Some "bad" |})))
       (JBoolean true)).
Proof.
  split; [reflexivity |].
  apply (proj1 (proj2 (C7_requiredString_validation_only_override "Name"))). reflexivity.
Defined.

(** C10: [requiredStringTrimmed] checks the minimum length on the input as
    given and trims afterwards: for every label and override, the input " "
    (and every non-empty string of white space) is accepted and the output is
    the empty string, while the empty input itself is a validation failure. *)
Theorem C10_requiredStringTrimmed_whitespace_only :
  forall (label : option string) (msg : option MessageArg),
  let f := requiredStringTrimmed label msg in
  safeParse f (JString " ") = success "" /\
  (forall c s, allChars isWhiteSpace (String c s) = true ->
     safeParse f (JString (String c s)) = success "") /\
  raises Validation (safeParse f (JString "")) = true.
Proof.
  intros label msg. cbv zeta. split; [reflexivity | split; [| reflexivity]].
  intros c s H. unfold safeParse. simpl.
  change (trimEnd (if isWhiteSpace c then trimStart s else String c s))
    with (trim (String c s)).
  rewrite (trim_whitespace _ H). reflexivity.
Qed.

Lemma C10_witness :
  allChars isWhiteSpace (String " " (String "009" " ")) = true /\
  safeParse (requiredStringTrimmed (Some "Name") None)
    (JString (String " " (String "009" " "))) = success "".
Proof.
  split; [reflexivity |].
  apply (proj1 (proj2 (C10_requiredStringTrimmed_whitespace_only (Some "Name") None))).
  reflexivity.
Defined.

(** C5: [Enum(["a","b"], "Role")] accepts "a" and "b" unchanged and rejects
    every other input (another string such as "c", a missing value, a value
    that is not a string) with exactly one issue whose message is
    "Role must be one of: a, b". *)
Theorem C5_Enum_unified_message :
  let f := Enum ["a"; "b"] (Some "Role") None in
  safeParse f (JString "a") = success "a" /\
  safeParse f (JString "b") = success "b" /\
  (forall v, v <> JString "a" -> v <> JString "b" ->
     exists i, safeParse f v = failure [i] /\ message i = "Role must be one of: a, b").
Proof.
  cbv zeta. split; [reflexivity | split; [reflexivity |]].
  intros v Ha Hb.
  destruct v as [| |b|n|s|items|fields];
    try (eexists; split; reflexivity).
  unfold safeParse, _parse, ZodEnum_parse. simpl.
  destruct (String.eqb_spec s "a") as [->|Hna]; [now elim Ha |].
  destruct (String.eqb_spec s "b") as [->|Hnb]; [now elim Hb |].
  simpl. eexists; split; reflexivity.
Qed.

Lemma C5_witness :
  let f := Enum ["a"; "b"] (Some "Role") None in
  (exists i, safeParse f (JString "c") = failure [i]
             /\ message i = "Role must be one of: a, b") /\
  (exists i, safeParse f JUndefined = failure [i]
             /\ message i = "Role must be one of: a, b") /\
  (exists i, safeParse f (JNumber 1%float) = failure [i]
             /\ message i = "Role must be one of: a, b").
Proof.
  cbv zeta.
  repeat split;
    apply (proj2 (proj2 C5_Enum_unified_message)); discriminate.
Defined.

(** [Number.isFinite] excludes NaN. *)
Lemma isFinite_not_NaN (n : number) : isFinite n = true -> isNaN n = false.
Proof.
  unfold isFinite, is_finite, isNaN. intro H.
  apply negb_true_iff, orb_false_iff in H. tauto.
Qed.

(** What [money] computes on a number and on a string. *)
Lemma money_number (label : option string) (msg : option MessageArg) (n : number) :
  isFinite n = true -> geq n zero = true ->
  safeParse (money label msg) (JNumber n)
  = success (Math_round (n * 100) / 100)%float.
Proof.
  intros Hf Hg. unfold money. run_parse.
  rewrite (isFinite_not_NaN n Hf). simpl. rewrite Hf, Hg. reflexivity.
Qed.

Lemma money_string (label : option string) (msg : option MessageArg) (s : string) :
  isFinite (Number s) = true -> geq (Number s) zero = true ->
  safeParse (money label msg) (JString s)
  = success (Math_round (Number s * 100) / 100)%float.
Proof.
  intros Hf Hg. unfold money. run_parse.
  rewrite Hf, Hg. reflexivity.
Qed.

Lemma money_success_inv (label : option string) (msg : option MessageArg)
    (v : JsValue) (out : number) :
  safeParse (money label msg) v = success out ->
  exists n, (v = JNumber n \/ exists s, v = JString s /\ n = Number s)
            /\ isFinite n = true /\ geq n zero = true
            /\ out = (Math_round (n * 100) / 100)%float.
Proof.
  unfold money.
  destruct v as [| |b|n|s|items|fields]; run_parse; try discriminate.
  - destruct (isNaN n); simpl; [discriminate|].
    destruct (isFinite n) eqn:Hf, (geq n zero) eqn:Hg; simpl; try discriminate.
    intro H; injection H as <-. exists n. auto.
  - destruct (isFinite (Number s)) eqn:Hf, (geq (Number s) zero) eqn:Hg;
      simpl; try discriminate.
    intro H; injection H as <-. exists (Number s).
    split; [right; exists s; split; reflexivity | auto].
Qed.

(** C3: [money()] accepts "12.345" with output 12.35 (not 12.34), rejects -1
    with a validation failure and "abc" on the finiteness check; every
    accepted input is a finite number n >= 0 (given as a number or as a
    numeric string) and its output is round(n * 100) / 100, where the
    rounding of the scaled value is rounding half away from zero. *)
Theorem C3_money_rounds_to_two_decimals :
  safeParse (money None None) (JString "12.345") = success 12.35%float /\
  safeParse (money None None) (JString "12.345") <> success 12.34%float /\
  failsWith Validation "Amount must be >= 0"
    (safeParse (money None None) (JNumber (-1)%float)) /\
  safeParse (money None None) (JString "abc")
  = failure [ {| code := custom; received := None; message := "Amount must be a number" |};
              {| code := custom; received := None; message := "Amount must be >= 0" |} ] /\
  (forall label msg n, isFinite n = true -> geq n zero = true ->
     safeParse (money label msg) (JNumber n)
     = success (roundHalfAwayFromZero (n * 100) / 100)%float) /\
  (forall label msg s, isFinite (Number s) = true -> geq (Number s) zero = true ->
     safeParse (money label msg) (JString s)
     = success (roundHalfAwayFromZero (Number s * 100) / 100)%float) /\
  (forall label msg v out, safeParse (money label msg) v = success out ->
     exists n, (v = JNumber n \/ exists s, v = JString s /\ n = Number s)
               /\ isFinite n = true /\ geq n zero = true
               /\ out = (Math_round (n * 100) / 100)%float
               /\ Math_round (n * 100)%float = roundHalfAwayFromZero (n * 100)%float).
Proof.
  split; [reflexivity |].
  split.
  { intro H.
    apply (f_equal (fun r => match r with
                             | success out => PrimFloat.eqb out 12.34
                             | failure _ => false
                             end)) in H.
    vm_compute in H. discriminate H. }
  split; [fails_by_computation |].
  split; [reflexivity |].
  split.
  { intros label msg n Hf Hg.
    rewrite <- (@Math_round_half_away (n * 100)%float
                  (fun m e => @scaled_not_negative n m e Hg)).
    now apply money_number. }
  split.
  { intros label msg s Hf Hg.
    rewrite <- (@Math_round_half_away (Number s * 100)%float
                  (fun m e => @scaled_not_negative (Number s) m e Hg)).
    now apply money_string. }
  intros label msg v out H.
  destruct (money_success_inv _ _ _ _ H) as (n & Hv & Hf & Hg & Hout).
  exists n. repeat split; try assumption.
  apply Math_round_half_away. intros m e. now apply scaled_not_negative.
Qed.

Lemma C3_witness :
  isFinite 19.99%float = true /\ geq 19.99%float zero = true /\
  safeParse (money (Some "Price") None) (JNumber 19.99%float)
  = success (roundHalfAwayFromZero (19.99 * 100) / 100)%float.
Proof.
  split; [reflexivity | split; [reflexivity |]].
  apply (proj1 (proj2 (proj2 (proj2 (proj2 C3_money_rounds_to_two_decimals)))));
    reflexivity.
Defined.

(** C4: [emailOrMobileNormalized()] accepts " +91 98765-43210 " as the mobile
    "9876543210" and "A@B.com" as the email "a@b.com", and rejects "12345".
    In general the input is trimmed, loses its white space and hyphens and
    a leading "+91"; what is left is accepted as an email (output lowercased)
    when it matches the email pattern, else as a mobile when it has ten
    digits the first of which is in 6-9, else rejected; the output is the
    tagged record. *)
Theorem C4_emailOrMobileNormalized_tagged_output :
  let f := emailOrMobileNormalized None None in
  safeParse f (JString " +91 98765-43210 ")
  = success {| type := mobile; value := "9876543210" |} /\
  safeParse f (JString "A@B.com") = success {| type := email; value := "a@b.com" |} /\
  failsWith Validation "Identifier must be a valid email or mobile"
    (safeParse f (JString "12345")) /\
  (forall label msg raw,
     let stripped := removeAll spaceOrHyphen (trim raw) in
     let rest := if startsWith "+91" stripped then slice 3 stripped else stripped in
     safeParse (emailOrMobileNormalized label msg) (JString raw)
     = if test emailPattern rest
       then success {| type := email; value := toLowerCase rest |}
       else if tenDigitsFirst6to9 rest
            then success {| type := mobile; value := rest |}
            else failure
                   [ {| code := custom; received := None;
                        message :=
                          messageFor validation msg
                            (defaultTo "Identifier" label
                               ++ " must be a valid email or mobile") |} ]).
Proof.
  cbv zeta. split; [reflexivity | split; [reflexivity | split; [fails_by_computation |]]].
  intros label msg raw. unfold emailOrMobileNormalized. run_pipeline.
  rewrite indianMobilePattern_spec.
  set (stripped := removeAll spaceOrHyphen (trim raw)).
  set (rest := if startsWith "+91" stripped then slice 3 stripped else stripped).
  destruct (test emailPattern rest) eqn:He; simpl; rewrite ?He; [reflexivity |].
  destruct (tenDigitsFirst6to9 rest) eqn:Hm; simpl; rewrite ?He; reflexivity.
Qed.

(** ** C2: [positiveNumber] *)

Lemma gt_zero_not_NaN (n : number) : gt n zero = true -> isNaN n = false.
Proof.
  unfold gt. rewrite ltb_spec, Prim2SF_zero. intro H.
  destruct (isNaN n) eqn:E; [| reflexivity].
  apply isNaN_spec in E. rewrite E in H. discriminate.
Qed.

Lemma length_app (s1 s2 : string) :
  String.length (s1 ++ s2) = String.length s1 + String.length s2.
Proof. induction s1 as [|c s1 IH]; simpl; [reflexivity | now rewrite IH]. Qed.

(** C2: [positiveNumber] does not label a missing value.  For every label
    L with no override, [positiveNumber(L)] answers [undefined] with exactly
    one issue of class Required, but the message is the runtime's "Required"
    and not "L is required": the factory hands no required message to
    [z.number], where its sibling [requiredNumber] hands "L is required".
    The rest of the claim holds on the code: a present value that is not a
    number fails with "L must be a number" (InvalidType), a number that is
    not strictly greater than zero fails with a validation issue, and a
    number greater than zero is accepted unchanged. *)
Theorem C2_positiveNumber_missing_value_unlabelled : forall L : string,
  let f := positiveNumber (Some L) None in
  safeParse f JUndefined
  = failure [ {| code := invalid_type; received := Some ZodParsedType.undefined;
                 message := "Required" |} ] /\
  ~ failsWith Required (L ++ " " ++ FIELD_ERRORS.REQUIRED) (safeParse f JUndefined) /\
  failsWith Required (L ++ " " ++ FIELD_ERRORS.REQUIRED)
    (safeParse (requiredNumber (Some L) None) JUndefined) /\
  (forall v, wrongType ZodParsedType.number v = true ->
     failsWith InvalidType (L ++ " must be a number") (safeParse f v)) /\
  (forall n, isNaN n = false -> gt n zero = false ->
     failsWith Validation (L ++ " must be positive") (safeParse f (JNumber n))) /\
  (forall n, gt n zero = true -> safeParse f (JNumber n) = success n).
Proof.
  intro L. cbv zeta. split; [reflexivity |]. split; [| split; [| split; [| split]]].
  - intros (i & Hi & _ & Hm). injection Hi as <-. cbn [message] in Hm.
    apply (f_equal String.length) in Hm. rewrite length_app in Hm.
    simpl in Hm. lia.
  - fails_by_computation.
  - intros v H. unfold failsWith.
    destruct v as [| |b|n|s|items|fields]; try discriminate H;
      try (eexists; split; [reflexivity | split; [|reflexivity]];
           apply (failureClass_wrongType ZodParsedType.number); exact H).
    unfold wrongType in H. simpl in H.
    unfold positiveNumber. run_parse.
    destruct (isNaN n) eqn:En; [| discriminate H].
    eexists; split; [reflexivity | split; reflexivity].
  - intros n Hn Hg. unfold positiveNumber, failsWith. run_parse.
    rewrite Hn, (leb_zero_not_gt n Hn), Hg. simpl.
    eexists; split; [reflexivity | split; reflexivity].
  - intros n Hg. unfold positiveNumber. run_parse.
    rewrite (gt_zero_not_NaN n Hg), (leb_zero_not_gt n (gt_zero_not_NaN n Hg)), Hg.
    reflexivity.
Qed.

Lemma C2_witness :
  wrongType ZodParsedType.number (JString "7") = true /\
  failsWith InvalidType "Age must be a number"
    (safeParse (positiveNumber (Some "Age") None) (JString "7")) /\
  isNaN 0%float = false /\ gt 0%float zero = false /\
  failsWith Validation "Age must be positive"
    (safeParse (positiveNumber (Some "Age") None) (JNumber 0%float)) /\
  gt 2.5%float zero = true /\
  safeParse (positiveNumber (Some "Age") None) (JNumber 2.5%float) = success 2.5%float.
Proof.
  pose proof (C2_positiveNumber_missing_value_unlabelled "Age")
    as (_ & _ & _ & Hty & Hval & Hok).
  split; [reflexivity |]. split; [apply Hty; reflexivity |].
  split; [reflexivity |]. split; [reflexivity |].
  split; [apply Hval; reflexivity |].
  split; [reflexivity | apply Hok; reflexivity].
Defined.

(** ** C8: the optional fragments *)

(** C8, as stated, fails for [optionalUUID] (and [optionalDate]): a present
    string is also checked against the format, and a malformed one is a
    validation failure. *)
Lemma C8_counterexample :
  getParsedType (JString "not-a-uuid") = ZodParsedType.string /\
  safeParse (optionalUUID (Some "ID") None) (JString "not-a-uuid")
  = failure [ {| code := invalid_string; received := None;
                 message := "ID must be a valid UUID" |} ] /\
  onlyInvalidType (safeParse (optionalUUID (Some "ID") None) (JString "not-a-uuid")) = false.
Proof. repeat split. Qed.

(** C8 (amended): for every label and override, each of the five optional
    fragments accepts an absent input as [undefined] and raises Required on no
    input at all; [optionalString], [optionalNumber] and [optionalBoolean]
    check nothing but the type of a present value and return a value of the
    type unchanged, while [optionalUUID] and [optionalDate] also run their
    format check on a present string, which is accepted exactly when it
    passes and is a validation failure otherwise. *)
Theorem C8_optional_fragments :
  forall (Date_parse : string -> number) (label : option string)
         (msg : option MessageArg) (v : JsValue),
  (safeParse (optionalString label msg) JUndefined = success None /\
   safeParse (optionalNumber label msg) JUndefined = success None /\
   safeParse (optionalBoolean label msg) JUndefined = success None /\
   safeParse (optionalUUID label msg) JUndefined = success None /\
   safeParse (optionalDate Date_parse label msg) JUndefined = success None) /\
  (raises Required (safeParse (optionalString label msg) v) = false /\
   raises Required (safeParse (optionalNumber label msg) v) = false /\
   raises Required (safeParse (optionalBoolean label msg) v) = false /\
   raises Required (safeParse (optionalUUID label msg) v) = false /\
   raises Required (safeParse (optionalDate Date_parse label msg) v) = false) /\
  (onlyInvalidType (safeParse (optionalString label msg) v) = true /\
   onlyInvalidType (safeParse (optionalNumber label msg) v) = true /\
   onlyInvalidType (safeParse (optionalBoolean label msg) v) = true) /\
  ((forall s, safeParse (optionalString label msg) (JString s) = success (Some s)) /\
   (forall n, safeParse (optionalNumber label msg) (JNumber n)
              = if isNaN n
                then safeParse (optionalNumber label msg) (JNumber nan)
                else success (Some n)) /\
   (forall b, safeParse (optionalBoolean label msg) (JBoolean b) = success (Some b))) /\
  ((forall s, safeParse (optionalUUID label msg) (JString s)
              = if test uuidRegex s
                then success (Some s)
                else failure [ {| code := invalid_string; received := None;
                                  message :=
                                    match msg with
                                    | Some (Text t) => Some t
                                    | Some (PerClass m) => validation m
                                    | None => None
                                    end ||! defaultTo "ID" label ++ " must be a valid UUID" |} ]) /\
   (forall s, safeParse (optionalDate Date_parse label msg) (JString s)
              = if isNaN (Date_parse s)
                then failure [ {| code := custom; received := None;
                                  message :=
                                    match msg with
                                    | Some (Text t) => Some t
                                    | Some (PerClass m) => validation m
                                    | None => None
                                    end ||! defaultTo "Date" label ++ " must be a valid date" |} ]
                else success (Some s))).
Proof.
  intros Date_parse label msg v.
  split; [repeat split |].
  split.
  { unfold optionalString, optionalNumber, optionalBoolean, optionalUUID, optionalDate,
      Fragments.uuid, dateString.
    repeat split;
      destruct v as [| |b|n|s|items|fields]; run_parse; try reflexivity;
      case_conditions; reflexivity. }
  split.
  { unfold optionalString, optionalNumber, optionalBoolean.
    repeat split;
      destruct v as [| |b|n|s|items|fields]; run_parse; try reflexivity;
      case_conditions; reflexivity. }
  split.
  { unfold optionalString, optionalNumber, optionalBoolean.
    repeat split; intros; run_parse; try reflexivity.
    destruct (isNaN n) eqn:E; [| reflexivity].
    assert (Hn : n = nan).
    { apply Prim2SF_inj. apply isNaN_spec in E. rewrite E. reflexivity. }
    subst n. reflexivity. }
  unfold optionalUUID, optionalDate, Fragments.uuid, dateString.
  split; intro s; run_parse.
  - destruct (test uuidRegex s); destruct msg as [[t|m]|]; reflexivity.
  - destruct (isNaN (Date_parse s)); destruct msg as [[t|m]|]; reflexivity.
Qed.

(** ** C6: the wrong-type message *)

(** C6, as stated, fails for [Enum], whose one message answers a value
    of the wrong type too, and for [money], whose union of number and string
    answers one with the runtime's "Invalid input".  It fails as well where
    the type is checked by a schema that was given no message: [booleanCoerce]
    and [fileUrl] answer with the runtime's "Expected ..., received ...", and
    [optionalNumberCoerce] converts the boolean [true] to 1 and accepts it. *)
Lemma C6_counterexample :
  wrongType ZodParsedType.string (JNumber 1%float) = true /\
  safeParse (Enum ["a"; "b"] (Some "Role") None) (JNumber 1%float)
  = failure [ {| code := invalid_type; received := Some ZodParsedType.number;
                 message := "Role must be one of: a, b" |} ] /\
  (forall suffix, In suffix catalog ->
     ~ failsWith InvalidType ("Role" ++ " " ++ suffix)
         (safeParse (Enum ["a"; "b"] (Some "Role") None) (JNumber 1%float))) /\
  wrongType ZodParsedType.number (JBoolean true) = true /\
  safeParse (money (Some "Amount") None) (JBoolean true)
  = failure [ {| code := invalid_union; received := None; message := "Invalid input" |} ] /\
  (forall text,
     ~ failsWith InvalidType text (safeParse (money (Some "Amount") None) (JBoolean true))) /\
  wrongType ZodParsedType.boolean (JString "yes") = true /\
  safeParse (booleanCoerce (Some "Flag") None) (JString "yes")
  = failure [ {| code := invalid_type; received := Some ZodParsedType.string;
                 message := "Expected boolean, received string" |} ] /\
  safeParse (optionalNumberCoerce (fun _ => nan) (Some "Age") None) (JBoolean true)
  = success (Some 1%float) /\
  safeParse (fileUrl (fun _ => true) (Some "File") None) (JNumber 1%float)
  = failure [ {| code := invalid_type; received := Some ZodParsedType.number;
                 message := "Expected string, received number" |} ].
Proof.
  split; [reflexivity |]. split; [reflexivity |]. split.
  - intros suffix Hin (i & Hi & _ & Hm). injection Hi as <-. simpl in Hm.
    unfold catalog in Hin. simpl in Hin.
    repeat (destruct Hin as [<- | Hin]; [discriminate Hm |]).
    exact Hin.
  - split; [reflexivity |]. split; [reflexivity |]. split.
    + intros text (i & Hi & Hc & _). injection Hi as <-. discriminate Hc.
    + repeat split; reflexivity.
Qed.

(** C6 (amended): for every factory taking (label, override) other than
    [fileUrl], [imageUrl], [optionalNumberCoerce], [booleanCoerce] and
    [money], and every label L, the fragment built with no override fails a
    present value of the wrong primitive type with exactly one InvalidType
    issue whose message is L, a space, and the catalog suffix of the
    fragment's base type ("must be a string", "must be a number" or
    "must be a boolean").  [Enum], and [enumFrom] with it, fails a present
    value that is not a string with exactly one InvalidType issue whose
    message is its unified "L must be one of: " followed by the options. *)
Theorem C6_wrong_type_message :
  forall (Date_parse : string -> number) (URL_parses : string -> bool)
         (ToNumber_object : JsValue -> number),
  (forall (f : Factory) (L : string) (v : JsValue),
     ~ In f unlabelledTypeCheck ->
     wrongType (baseType f) v = true ->
     failsWith InvalidType (L ++ " " ++ typeSuffix f)
       (safeValidate (construct Date_parse URL_parses ToNumber_object f (Some L) None) v)) /\
  (forall (options : list string) (L : string) (v : JsValue),
     wrongType ZodParsedType.string v = true ->
     failsWith InvalidType (L ++ " must be one of: " ++ join ", " options)
       (safeParse (Enum options (Some L) None) v) /\
     safeParse (enumFrom options (Some L) None) v
     = safeParse (Enum options (Some L) None) v).
Proof.
  intros Date_parse URL_parses ToNumber_object. split.
  - intros f L v Hf H. unfold failsWith, safeValidate, validate.
    destruct f;
      try (exfalso; apply Hf; unfold unlabelledTypeCheck; simpl; tauto);
      simpl in H;
      destruct v as [| |b|n|s|items|fields]; try discriminate H;
      unfold construct, pack, fragmentParse, fragment, fragmentToJs, typeSuffix, baseType;
      run_parse;
      try (unfold wrongType in H; simpl in H;
           destruct (isNaN n) eqn:En; simpl in H; try discriminate H);
      (eexists; split; [reflexivity | split; reflexivity]).
  - intros options L v H. split; [| reflexivity].
    unfold failsWith, Enum.
    destruct v as [| |b|n|s|items|fields]; try discriminate H;
      run_parse; try destruct (isNaN n);
      (eexists; split; [reflexivity | split; reflexivity]).
Qed.

Lemma C6_witness :
  ~ In f_positiveNumber unlabelledTypeCheck /\
  wrongType (baseType f_positiveNumber) (JString "12") = true /\
  failsWith InvalidType "Quantity must be a number"
    (safeValidate
       (construct (fun _ => nan) (fun _ => true) (fun _ => nan)
          f_positiveNumber (Some "Quantity") None)
       (JString "12")) /\
  wrongType ZodParsedType.string (JBoolean false) = true /\
  failsWith InvalidType "Role must be one of: a, b"
    (safeParse (Enum ["a"; "b"] (Some "Role") None) (JBoolean false)).
Proof.
  assert (Hf : ~ In f_positiveNumber unlabelledTypeCheck).
  { intros [H|[H|[H|[H|[H|[]]]]]]; discriminate H. }
  pose proof (C6_wrong_type_message (fun _ => nan) (fun _ => true) (fun _ => nan))
    as [Hfactory HEnum].
  split; [exact Hf |]. split; [reflexivity |].
  split; [apply (Hfactory f_positiveNumber "Quantity" (JString "12") Hf); reflexivity |].
  split; [reflexivity |].
  apply (HEnum ["a"; "b"] "Role" (JBoolean false)); reflexivity.
Defined.

(** ** The frame property: a parse does not read the issues raised so far *)

Lemma runStringCheck_frame (data : string) (c : ZodStringCheck)
    (st : ParseStatus) (pre acc : Issues) :
  runStringCheck data (st, (pre ++ acc)%list) c
  = (fst (runStringCheck data (st, acc) c),
     (pre ++ snd (runStringCheck data (st, acc) c))%list).
Proof.
  destruct c; simpl; case_conditions; simpl;
    unfold addIssueWithMessage; rewrite <- ?app_assoc; reflexivity.
Qed.

Lemma fold_runStringCheck_frame (data : string) (checks : list ZodStringCheck) :
  forall (st : ParseStatus) (pre acc : Issues),
  fold_left (runStringCheck data) checks (st, (pre ++ acc)%list)
  = (fst (fold_left (runStringCheck data) checks (st, acc)),
     (pre ++ snd (fold_left (runStringCheck data) checks (st, acc)))%list).
Proof.
  induction checks as [|c checks IH]; intros st pre acc; cbn [fold_left]; [reflexivity |].
  rewrite runStringCheck_frame.
  destruct (runStringCheck data (st, acc) c) as [st' acc']. cbn [fst snd]. apply IH.
Qed.

Lemma runNumberCheck_frame (data : number) (c : ZodNumberCheck)
    (st : ParseStatus) (pre acc : Issues) :
  runNumberCheck data (st, (pre ++ acc)%list) c
  = (fst (runNumberCheck data (st, acc) c),
     (pre ++ snd (runNumberCheck data (st, acc) c))%list).
Proof.
  destruct c; simpl; case_conditions; simpl;
    unfold addIssueWithMessage; rewrite <- ?app_assoc; reflexivity.
Qed.

Lemma fold_runNumberCheck_frame (data : number) (checks : list ZodNumberCheck) :
  forall (st : ParseStatus) (pre acc : Issues),
  fold_left (runNumberCheck data) checks (st, (pre ++ acc)%list)
  = (fst (fold_left (runNumberCheck data) checks (st, acc)),
     (pre ++ snd (fold_left (runNumberCheck data) checks (st, acc)))%list).
Proof.
  induction checks as [|c checks IH]; intros st pre acc; cbn [fold_left]; [reflexivity |].
  rewrite runNumberCheck_frame.
  destruct (runNumberCheck data (st, acc) c) as [st' acc']. cbn [fst snd]. apply IH.
Qed.

#[global] Instance ZodString_Framed : Framed ZodString string.
Proof.
  intros s data pre. unfold _parse, ZodString_parse.
  destruct data as [| |b|n|str|items|fields];
    try (unfold addIssueToContext; reflexivity).
  pose proof (fold_runStringCheck_frame str (string_checks s) valid pre []) as E.
  rewrite app_nil_r in E. cbv beta iota. unfold Issues in *. rewrite E.
  match goal with |- context [fst ?F] => destruct F as [st acc] end.
  reflexivity.
Qed.

#[global] Instance ZodNumber_Framed : Framed ZodNumber number.
Proof.
  intros s data pre. unfold _parse, ZodNumber_parse.
  destruct data as [| |b|n|str|items|fields];
    try (unfold addIssueToContext; reflexivity).
  destruct (isNaN n); [unfold addIssueToContext; reflexivity |].
  pose proof (fold_runNumberCheck_frame n (number_checks s) valid pre []) as E.
  rewrite app_nil_r in E. cbv beta iota. unfold Issues in *. rewrite E.
  match goal with |- context [fst ?F] => destruct F as [st acc] end.
  reflexivity.
Qed.

#[global] Instance ZodBoolean_Framed : Framed ZodBoolean bool.
Proof.
  intros s data pre. unfold _parse, ZodBoolean_parse.
  destruct data; unfold addIssueToContext; simpl; rewrite ?app_nil_r; reflexivity.
Qed.

#[global] Instance ZodEnum_Framed : Framed ZodEnum string.
Proof.
  intros s data pre. unfold _parse, ZodEnum_parse.
  destruct data as [| |b|n|str|items|fields];
    try (unfold addIssueToContext; reflexivity).
  destruct (includes str (values s)); unfold addIssueToContext; simpl;
    rewrite ?app_nil_r; reflexivity.
Qed.

#[global] Instance ZodOptional_Framed (S O : Type) (P : ZodType S O)
    (F : @Framed S O P) : Framed (ZodOptional S) (option O).
Proof.
  intros s data pre. unfold _parse, ZodOptional_parse.
  destruct data; simpl; rewrite ?app_nil_r; try reflexivity;
    rewrite (framed (innerType s) _ pre);
    destruct (_parse (innerType s) _ []) as [[o|o|] acc]; reflexivity.
Qed.

Lemma runEffect_frame (I O : Type) (e : Effect I O) (r : ParseReturn I)
    (pre acc : Issues) :
  runEffect e (r, (pre ++ acc)%list)
  = (fst (runEffect e (r, acc)), (pre ++ snd (runEffect e (r, acc)))%list).
Proof.
  destruct e; destruct r; simpl; case_conditions; simpl;
    unfold addIssueWithMessage; rewrite <- ?app_assoc; reflexivity.
Qed.

#[global] Instance ZodEffects_Framed (S I O : Type) (P : ZodType S I)
    (F : @Framed S I P) : Framed (ZodEffects S I O) O.
Proof.
  intros s data pre. unfold _parse, ZodEffects_parse.
  rewrite (framed (schema s) data pre).
  destruct (_parse (schema s) data []) as [r acc]. simpl.
  apply runEffect_frame.
Qed.

#[global] Instance ZodUnion_Framed (S1 S2 O1 O2 : Type)
    (P1 : ZodType S1 O1) (P2 : ZodType S2 O2) : Framed (ZodUnion S1 S2) (O1 + O2).
Proof.
  intros s data pre. unfold _parse, ZodUnion_parse.
  destruct (options s) as [a b].
  destruct (_parse a data []) as [[o1|o1|] acc1];
    destruct (_parse b data []) as [[o2|o2|] acc2];
    unfold addIssueToContext; simpl; rewrite ?app_nil_r; reflexivity.
Qed.

(* ================================================================== *)
(** * Further properties: strings and patterns *)
(* ================================================================== *)

Import ZodMore MoreExtensions Formats.

Lemma allChars_app (p : ascii -> bool) (s1 s2 : string) :
  allChars p (s1 ++ s2) = allChars p s1 && allChars p s2.
Proof.
  induction s1 as [|c s1 IH]; simpl; [reflexivity |].
  rewrite IH. apply andb_assoc.
Qed.

Lemma allChars_impl (p q : ascii -> bool) (s : string) :
  (forall c, p c = true -> q c = true) -> allChars p s = true -> allChars q s = true.
Proof.
  intro Hpq. induction s as [|c s IH]; simpl; [reflexivity |].
  intro H. apply andb_prop in H as [Hc Hs]. rewrite (Hpq c Hc), (IH Hs). reflexivity.
Qed.

Lemma toLowerCase_app (s1 s2 : string) :
  toLowerCase (s1 ++ s2) = toLowerCase s1 ++ toLowerCase s2.
Proof. induction s1 as [|c s1 IH]; simpl; [reflexivity | now rewrite IH]. Qed.

Lemma toLowerCase_length (s : string) : String.length (toLowerCase s) = String.length s.
Proof. induction s as [|c s IH]; simpl; [reflexivity | now rewrite IH]. Qed.

Lemma toLowerCaseChar_idem (c : ascii) :
  toLowerCaseChar (toLowerCaseChar c) = toLowerCaseChar c.
Proof. destruct c as [[] [] [] [] [] [] [] []]; reflexivity. Qed.

Lemma toLowerCase_idem (s : string) : toLowerCase (toLowerCase s) = toLowerCase s.
Proof.
  induction s as [|c s IH]; simpl; [reflexivity |].
  now rewrite toLowerCaseChar_idem, IH.
Qed.

(** A string without capitals is its own lower case. *)
Lemma toLowerCase_fixed (p : ascii -> bool) (s : string) :
  (forall c, p c = true -> toLowerCaseChar c = c) ->
  allChars p s = true -> toLowerCase s = s.
Proof.
  intro Hp. induction s as [|c s IH]; simpl; [reflexivity |].
  intro H. apply andb_prop in H as [Hc Hs]. now rewrite (Hp c Hc), (IH Hs).
Qed.

Lemma allChars_toLowerCase (p q : ascii -> bool) (s : string) :
  (forall c, p c = true -> q (toLowerCaseChar c) = true) ->
  allChars p s = true -> allChars q (toLowerCase s) = true.
Proof.
  intro Hpq. induction s as [|c s IH]; simpl; [reflexivity |].
  intro H. apply andb_prop in H as [Hc Hs]. now rewrite (Hpq c Hc), (IH Hs).
Qed.

Lemma trimEnd_fixed (s : string) : allChars notWhiteSpace s = true -> trimEnd s = s.
Proof.
  induction s as [|c s IH]; simpl; [reflexivity |].
  intro H. apply andb_prop in H as [Hc Hs]. rewrite (IH Hs).
  unfold notWhiteSpace in Hc. apply negb_true_iff in Hc. rewrite Hc.
  destruct s; reflexivity.
Qed.

(** A string without white space is not changed by [trim]. *)
Lemma trim_fixed (s : string) : allChars notWhiteSpace s = true -> trim s = s.
Proof.
  intro H. unfold trim.
  assert (E : trimStart s = s).
  { destruct s as [|c s]; [reflexivity |]. simpl in *.
    apply andb_prop in H as [Hc _]. unfold notWhiteSpace in Hc.
    apply negb_true_iff in Hc. now rewrite Hc. }
  rewrite E. now apply trimEnd_fixed.
Qed.

Lemma removeAll_none (cls : ascii -> bool) (s : string) :
  allChars (fun c => negb (cls c)) (removeAll cls s) = true.
Proof.
  induction s as [|c s IH]; simpl; [reflexivity |].
  destruct (cls c) eqn:E; simpl; [exact IH | now rewrite E, IH].
Qed.

Lemma removeAll_fixed (cls : ascii -> bool) (s : string) :
  allChars (fun c => negb (cls c)) s = true -> removeAll cls s = s.
Proof.
  induction s as [|c s IH]; simpl; [reflexivity |].
  intro H. apply andb_prop in H as [Hc Hs]. apply negb_true_iff in Hc.
  now rewrite Hc, (IH Hs).
Qed.

Lemma spaceOrHyphen_whitespace (c : ascii) :
  isWhiteSpace c = true -> spaceOrHyphen c = true.
Proof. intro H. unfold spaceOrHyphen. now rewrite H. Qed.

Lemma removeAll_trimStart (s : string) :
  removeAll spaceOrHyphen (trimStart s) = removeAll spaceOrHyphen s.
Proof.
  induction s as [|c s IH]; simpl; [reflexivity |].
  destruct (isWhiteSpace c) eqn:E; [| reflexivity].
  now rewrite (spaceOrHyphen_whitespace c E).
Qed.

Lemma removeAll_trimEnd (s : string) :
  removeAll spaceOrHyphen (trimEnd s) = removeAll spaceOrHyphen s.
Proof.
  induction s as [|c s IH]; simpl; [reflexivity |].
  destruct (trimEnd s) as [|c' s'] eqn:E.
  - simpl in IH. rewrite <- IH.
    destruct (isWhiteSpace c) eqn:Ec; [| reflexivity].
    now rewrite (spaceOrHyphen_whitespace c Ec).
  - rewrite <- IH. reflexivity.
Qed.

(** Trimming first does not change what is left once white space and
    hyphens are removed. *)
Lemma removeAll_trim (s : string) :
  removeAll spaceOrHyphen (trim s) = removeAll spaceOrHyphen s.
Proof. unfold trim. now rewrite removeAll_trimEnd, removeAll_trimStart. Qed.

Lemma allChars_slice (p : ascii -> bool) (n : nat) :
  forall s, allChars p s = true -> allChars p (slice n s) = true.
Proof.
  induction n as [|n IH]; intros s H; [exact H |].
  destruct s as [|c s]; [reflexivity |]. simpl in *.
  apply andb_prop in H as [_ Hs]. now apply IH.
Qed.

(** ** Patterns *)

Lemma Matches_classesWithin (q : ascii -> bool) (r : RegExp) (s : string) :
  Matches r s -> classesWithin q r -> allChars q s = true.
Proof.
  induction 1 as [ |p c Hp|r1 r2 s1 s2 H1 IH1 H2 IH2|r1 r2 s H IH|r1 r2 s H IH
                 |r|r c s1 s2 H1 IH1 H2 IH2]; simpl; intro Hq.
  - reflexivity.
  - now rewrite (Hq c Hp).
  - destruct Hq as [Hq1 Hq2]. now rewrite allChars_app, (IH1 Hq1), (IH2 Hq2).
  - now apply IH.
  - now apply IH.
  - reflexivity.
  - change (allChars q (String c s1 ++ s2) = true).
    now rewrite allChars_app, (IH1 Hq), (IH2 Hq).
Qed.

Lemma Matches_toLowerCase (r : RegExp) (s : string) :
  Matches r s -> classesClosed toLowerCaseChar r -> Matches r (toLowerCase s).
Proof.
  induction 1 as [ |p c Hp|r1 r2 s1 s2 H1 IH1 H2 IH2|r1 r2 s H IH|r1 r2 s H IH
                 |r|r c s1 s2 H1 IH1 H2 IH2]; simpl; intro Hc.
  - constructor.
  - constructor. now apply Hc.
  - destruct Hc as [Hc1 Hc2]. rewrite toLowerCase_app. constructor; auto.
  - apply MAltL. now apply IH.
  - apply MAltR. now apply IH.
  - constructor.
  - change (Matches (Star r) (toLowerCase (String c s1 ++ s2))).
    rewrite toLowerCase_app.
    apply (@MStarCons r (toLowerCaseChar c) (toLowerCase s1) (toLowerCase s2)).
    + exact (IH1 Hc).
    + exact (IH2 Hc).
Qed.

Lemma Matches_Star_Class (p : ascii -> bool) (s : string) :
  Matches (Star (Class p)) s <-> allChars p s = true.
Proof.
  split.
  - intro H. apply (Matches_classesWithin p) in H; [exact H | simpl; auto].
  - induction s as [|c s IH]; simpl; intro H; [constructor |].
    apply andb_prop in H as [Hc Hs].
    apply (@MStarCons (Class p) c "" s); [now constructor | now apply IH].
Qed.

(** [[p]+] matches the non-empty strings of the class. *)
Lemma Matches_Plus_Class (p : ascii -> bool) (s : string) :
  Matches (Plus (Class p)) s <-> s <> "" /\ allChars p s = true.
Proof.
  unfold Plus. split.
  - intro H. split.
    + inversion H as [| |r1 r2 s1 s2 H1 H2| | | |]; subst.
      apply Matches_Class_inv in H1 as (c & -> & _). discriminate.
    + apply (Matches_classesWithin p) in H; [exact H | simpl; auto].
  - intros [Hne Ha]. destruct s as [|c s]; [now elim Hne |].
    simpl in Ha. apply andb_prop in Ha as [Hc Hs].
    change (String c s) with (String c "" ++ s).
    constructor; [now constructor | now apply Matches_Star_Class].
Qed.

Lemma test_Plus_Class (p : ascii -> bool) (s : string) :
  test (Plus (Class p)) s = negb (String.eqb s "") && allChars p s.
Proof.
  apply Bool.eq_true_iff_eq. rewrite test_Matches, Matches_Plus_Class, andb_true_iff.
  rewrite negb_true_iff, String.eqb_neq. reflexivity.
Qed.

Lemma test_Repeat_Class (p : ascii -> bool) (n : nat) (s : string) :
  test (Repeat n (Class p)) s = (String.length s =? n)%nat && allChars p s.
Proof.
  apply Bool.eq_true_iff_eq.
  rewrite test_Matches, Matches_Repeat_Class, andb_true_iff, Nat.eqb_eq. reflexivity.
Qed.

(** A match of the pattern is not empty. *)
Lemma Matches_length_Repeat (p : ascii -> bool) (n : nat) (s : string) :
  Matches (Repeat n (Class p)) s -> String.length s = n.
Proof. intro H. now apply Matches_Repeat_Class in H. Qed.

Lemma allChars_trimStart (p : ascii -> bool) (s : string) :
  allChars p s = true -> allChars p (trimStart s) = true.
Proof.
  induction s as [|c s IH]; simpl; [reflexivity |].
  intro H. destruct (isWhiteSpace c); [| exact H].
  apply andb_prop in H as [_ Hs]. now apply IH.
Qed.

Lemma allChars_trimEnd (p : ascii -> bool) (s : string) :
  allChars p s = true -> allChars p (trimEnd s) = true.
Proof.
  induction s as [|c s IH]; simpl; [reflexivity |].
  intro H. apply andb_prop in H as [Hc Hs]. specialize (IH Hs).
  destruct (trimEnd s) as [|c' s'].
  - destruct (isWhiteSpace c); simpl; [reflexivity | now rewrite Hc].
  - change (p c && allChars p (String c' s') = true). now rewrite Hc, IH.
Qed.

Lemma allChars_trim (p : ascii -> bool) (s : string) :
  allChars p s = true -> allChars p (trim s) = true.
Proof. intro H. unfold trim. now apply allChars_trimEnd, allChars_trimStart. Qed.

(** Decides a statement about one code unit by running through the 256
    of them. *)
Ltac by_char c :=
  destruct c as [[] [] [] [] [] [] [] []]; vm_compute;
  first [reflexivity | intro; first [reflexivity | discriminate]].

(** Solves [classesWithin] and [classesClosed] goals on a closed pattern. *)
Ltac classes_by_char :=
  simpl; repeat split;
  let c := fresh "c" in intro c; by_char c.

(* ================================================================== *)
(** * Further properties: the India-specific validators and the slugs *)
(* ================================================================== *)

(** What a required string with one pattern check accepts. *)
Lemma required_regex_success (label : option string) (msg : option MessageArg)
    (R : RegExp) (message : string) (s o : string) :
  safeParse (requiredString label msg |> regex R message) (JString s) = success o
  <-> s <> "" /\ test R s = true /\ o = s.
Proof.
  unfold requiredString. run_pipeline.
  destruct (test R s); destruct s as [|c s]; simpl; split;
    try discriminate;
    try (intros [H _]; now elim H);
    try (intros (_ & H & _); discriminate H).
  - intro H. injection H as <-. repeat split. discriminate.
  - intros (_ & _ & ->). reflexivity.
Qed.

(** The same, followed by a transform. *)
Lemma required_regex_transform_success (label : option string) (msg : option MessageArg)
    (R : RegExp) (message : string) (f : string -> string) (s o : string) :
  safeParse (requiredString label msg |> regex R message |> transform f) (JString s)
  = success o
  <-> s <> "" /\ test R s = true /\ o = f s.
Proof.
  unfold requiredString. run_pipeline.
  destruct (test R s); destruct s as [|c s]; simpl; split;
    try discriminate;
    try (intros [H _]; now elim H);
    try (intros (_ & H & _); discriminate H).
  - intro H. injection H as <-. repeat split. discriminate.
  - intros (_ & _ & ->). reflexivity.
Qed.

(** X1: [pinCode] accepts exactly the strings of six digits and returns them
    unchanged; the empty string is reported twice, once by the required
    check and once by the pattern. *)
Theorem pinCode_accepts_six_digits :
  forall (label : option string) (msg : option MessageArg) (s : string),
  (forall o, safeParse (pinCode label msg) (JString s) = success o
             <-> o = s /\ String.length s = 6 /\ allChars isDigit s = true) /\
  (forall L, safeParse (pinCode (Some L) None) (JString "")
             = failure [ {| code := too_small; received := None;
                            message := L ++ " is required" |};
                         {| code := invalid_string; received := None;
                            message := L ++ " must be 6 digits" |} ]).
Proof.
  intros label msg s. split; [| reflexivity].
  intro o. unfold pinCode. rewrite required_regex_success.
  change (Class (inRange "0" "9")) with (Class isDigit).
  rewrite test_Repeat_Class, andb_true_iff, Nat.eqb_eq.
  split.
  - intros (_ & [Hl Ha] & ->). auto.
  - intros (-> & Hl & Ha). repeat split; try assumption.
    intros ->. discriminate Hl.
Qed.

Lemma Matches_Seq_inv (r1 r2 : RegExp) (s : string) :
  Matches (Seq r1 r2) s ->
  exists s1 s2, s = s1 ++ s2 /\ Matches r1 s1 /\ Matches r2 s2.
Proof. intro H. inversion H; subst. eauto. Qed.

(** What the three normalizing validators built on a required string, one
    pattern and the trim-and-lowercase transform have in common. *)
Lemma normalized_pattern_output (label : option string) (msg : option MessageArg)
    (R : RegExp) (message : string) (s o : string) :
  classesWithin notWhiteSpace R ->
  classesClosed toLowerCaseChar R ->
  safeParse
    (requiredString label msg |> regex R message
       |> transform (fun v => toLowerCase (trim v)))
    (JString s) = success o ->
  Matches R s /\ o = toLowerCase s /\ trim s = s /\
  safeParse
    (requiredString label msg |> regex R message
       |> transform (fun v => toLowerCase (trim v)))
    (JString o) = success o.
Proof.
  intros Hw Hc H.
  apply required_regex_transform_success in H as (Hne & Ht & ->).
  apply test_Matches in Ht.
  pose proof (Matches_classesWithin notWhiteSpace R s Ht Hw) as Hs.
  rewrite (trim_fixed s Hs).
  repeat split; try assumption.
  apply required_regex_transform_success.
  pose proof (Matches_toLowerCase R s Ht Hc) as Hl.
  split; [| split].
  - destruct s; [now elim Hne | discriminate].
  - now apply test_Matches.
  - rewrite (trim_fixed _ (Matches_classesWithin notWhiteSpace R _ Hl Hw)).
    symmetry. apply toLowerCase_idem.
Qed.

(** X2: whatever [pan] accepts it returns in lower case, ten characters
    long, letters and digits only; the trim of the transform never removes
    anything (an input with white space around it is rejected by the pattern
    before the transform runs), and the output is accepted again as it is. *)
Theorem pan_output_is_canonical :
  forall (label : option string) (msg : option MessageArg) (s o : string),
  safeParse (pan label msg) (JString s) = success o ->
  o = toLowerCase s /\ trim s = s /\ String.length o = 10 /\
  allChars isLowerAlnum o = true /\
  safeParse (pan label msg) (JString o) = success o.
Proof.
  intros label msg s o H. unfold pan in *.
  apply normalized_pattern_output in H as (Hm & -> & Ht & Hi);
    [| classes_by_char | classes_by_char].
  repeat split; try assumption.
  - rewrite toLowerCase_length.
    apply Matches_Seq_inv in Hm as (s1 & s23 & -> & H1 & Hm).
    apply Matches_Seq_inv in Hm as (s2 & s3 & -> & H2 & H3).
    apply Matches_length_Repeat in H1, H2.
    apply Matches_Class_inv in H3 as (c & -> & _).
    rewrite !length_app, H1, H2. reflexivity.
  - apply (allChars_toLowerCase (fun c => isLetter c || isDigit c)).
    + intro c. by_char c.
    + apply (Matches_classesWithin _ _ _ Hm). classes_by_char.
Qed.

Lemma pan_output_witness :
  safeParse (pan None None) (JString "ABCDE1234F") = success "abcde1234f" /\
  trim "ABCDE1234F" = "ABCDE1234F" /\
  safeParse (pan None None) (JString "abcde1234f") = success "abcde1234f".
Proof.
  pose proof (pan_output_is_canonical None None "ABCDE1234F" "abcde1234f" eq_refl)
    as (_ & Ht & _ & _ & Hi).
  split; [reflexivity | split; assumption].
Defined.

(** X3: whatever [gstin] accepts has fifteen characters, none of them a
    capital other than Z: the pattern has no [i] flag, so a GSTIN written in
    capitals is rejected.  The output is the input in lower case, the trim
    never removes anything, and the output is accepted again as it is. *)
Theorem gstin_rejects_capitals :
  forall (label : option string) (msg : option MessageArg) (s o : string),
  safeParse (gstin label msg) (JString s) = success o ->
  allChars (fun c => isLowerAlnum c || Ascii.eqb c "Z") s = true /\
  String.length s = 15 /\ o = toLowerCase s /\ trim s = s /\
  safeParse (gstin label msg) (JString o) = success o.
Proof.
  intros label msg s o H. unfold gstin in *.
  apply normalized_pattern_output in H as (Hm & -> & Ht & Hi);
    [| classes_by_char | classes_by_char].
  repeat split; try assumption.
  - apply (Matches_classesWithin _ _ _ Hm). classes_by_char.
  - apply Matches_Seq_inv in Hm as (s1 & r1 & -> & H1 & Hm).
    apply Matches_Seq_inv in Hm as (s2 & r2 & -> & H2 & Hm).
    apply Matches_Seq_inv in Hm as (s3 & r3 & -> & H3 & Hm).
    apply Matches_Seq_inv in Hm as (s4 & s5 & -> & H4 & H5).
    apply Matches_length_Repeat in H1, H2.
    apply Matches_Class_inv in H3 as (c3 & -> & _).
    apply Matches_Class_inv in H4 as (c4 & -> & _).
    apply Matches_Class_inv in H5 as (c5 & -> & _).
    rewrite !length_app, H1, H2. reflexivity.
Qed.

Lemma gstin_witness :
  safeParse (gstin None None) (JString "22aaaaa0000a1Z5") = success "22aaaaa0000a1z5" /\
  String.length "22aaaaa0000a1Z5" = 15 /\
  safeParse (gstin None None) (JString "22aaaaa0000a1z5") = success "22aaaaa0000a1z5".
Proof.
  pose proof (gstin_rejects_capitals None None "22aaaaa0000a1Z5" "22aaaaa0000a1z5" eq_refl)
    as (_ & Hl & _ & _ & Hi).
  split; [reflexivity | split; assumption].
Defined.

(** X4: [domain] never changes what it accepts: the pattern admits neither
    capitals nor white space, so the trim and the lowercasing of its
    transform do nothing and the output is the input. *)
Theorem domain_output_is_input :
  forall (label : option string) (msg : option MessageArg) (s o : string),
  safeParse (domain label msg) (JString s) = success o ->
  o = s /\
  allChars (fun c => isSlugChar c || Ascii.eqb c ".") s = true.
Proof.
  intros label msg s o H. unfold domain in *.
  apply normalized_pattern_output in H as (Hm & -> & Ht & Hi);
    [| classes_by_char | classes_by_char].
  assert (Ha : allChars (fun c => isSlugChar c || Ascii.eqb c ".") s = true)
    by (apply (Matches_classesWithin _ _ _ Hm); classes_by_char).
  split; [| exact Ha].
  apply (toLowerCase_fixed (fun c => isSlugChar c || Ascii.eqb c ".")); [| exact Ha].
  intro c. by_char c.
Qed.

Lemma domain_witness :
  safeParse (domain None None) (JString "shop.example.in") = success "shop.example.in" /\
  "shop.example.in" = "shop.example.in".
Proof.
  split; [reflexivity |].
  exact (proj1 (domain_output_is_input None None "shop.example.in" "shop.example.in" eq_refl)).
Defined.

(** X5: [requiredSlugNormalized] accepts exactly the non-empty strings of
    lowercase letters, digits, hyphens and white space, and returns them
    trimmed: the lowercasing of its transform never changes anything, and an
    input of white space only is accepted with the empty slug as output. *)
Theorem requiredSlugNormalized_output :
  forall (label : option string) (msg : option MessageArg) (s o : string),
  (safeParse (requiredSlugNormalized label msg) (JString s) = success o
   <-> s <> "" /\ allChars (fun c => isSlugChar c || isWhiteSpace c) s = true
       /\ o = trim s) /\
  (s <> "" -> allChars isWhiteSpace s = true ->
   safeParse (requiredSlugNormalized label msg) (JString s) = success "").
Proof.
  intros label msg s o.
  assert (Hchar : forall c, isSlugChar c || isWhiteSpace c
                            = (inRange "a" "z" c || isDigit c || isWhiteSpace c
                               || Ascii.eqb c "-"))
    by (intro c; by_char c).
  assert (Heval : safeParse (requiredSlugNormalized label msg) (JString s)
                  = if test slugSpacePattern s
                    then success (toLowerCase (trim s))
                    else safeParse (requiredSlugNormalized label msg) (JString s)).
  { unfold requiredSlugNormalized. run_pipeline.
    destruct (test slugSpacePattern s); reflexivity. }
  assert (Htest : test slugSpacePattern s = true
                  <-> s <> "" /\ allChars (fun c => isSlugChar c || isWhiteSpace c) s = true).
  { unfold slugSpacePattern. rewrite test_Plus_Class, andb_true_iff.
    rewrite negb_true_iff, String.eqb_neq.
    split; intros [Hne Ha]; (split; [exact Hne |]);
      revert Ha; apply allChars_impl; intros c Hc; [rewrite Hchar | rewrite <- Hchar];
      exact Hc. }
  assert (Hlow : forall t, allChars (fun c => isSlugChar c || isWhiteSpace c) t = true ->
                           toLowerCase (trim t) = trim t).
  { intros t Ht.
    apply (toLowerCase_fixed (fun c => isSlugChar c || isWhiteSpace c)).
    - intro c. by_char c.
    - now apply allChars_trim. }
  assert (Hfail : test slugSpacePattern s = false ->
                  forall x, safeParse (requiredSlugNormalized label msg) (JString s)
                            <> success x).
  { intros Hf x. unfold requiredSlugNormalized. run_pipeline. rewrite Hf. discriminate. }
  split.
  - split.
    + intro H.
      assert (Et : test slugSpacePattern s = true)
        by (apply not_false_is_true; intro Ef; exact (Hfail Ef o H)).
      rewrite Heval, Et in H. apply Htest in Et as [Hne Ha].
      injection H as <-. repeat split; try assumption. now apply Hlow.
    + intros (Hne & Ha & ->). rewrite Heval.
      rewrite (proj2 Htest (conj Hne Ha)). now rewrite (Hlow s Ha).
  - intros Hne Hw. rewrite Heval.
    assert (Ha : allChars (fun c => isSlugChar c || isWhiteSpace c) s = true).
    { revert Hw. apply allChars_impl. intros c Hc. rewrite Hc. apply orb_true_r. }
    rewrite (proj2 Htest (conj Hne Ha)), (trim_whitespace s Hw). reflexivity.
Qed.

Lemma requiredSlugNormalized_witness :
  " " <> "" /\ allChars isWhiteSpace " " = true /\
  safeParse (requiredSlugNormalized (Some "Slug") None) (JString " ") = success "".
Proof.
  split; [discriminate | split; [reflexivity |]].
  apply (proj2 (requiredSlugNormalized_output (Some "Slug") None " " ""));
    [discriminate | reflexivity].
Defined.

(** X6: [slug] is optional, so an absent value is accepted, but the empty
    string is not: a present string is accepted, unchanged, exactly when it is
    a non-empty string of lowercase letters, digits and hyphens. *)
Theorem slug_accepts_absent_not_empty :
  forall (label : option string) (msg : option MessageArg),
  safeParse (slug label msg) JUndefined = success None /\
  raises Validation (safeParse (slug label msg) (JString "")) = true /\
  (forall s o, safeParse (slug label msg) (JString s) = success o
               <-> o = Some s /\ s <> "" /\ allChars isSlugChar s = true).
Proof.
  intros label msg. split; [reflexivity | split; [reflexivity |]].
  intros s o. unfold slug. run_pipeline.
  change (fun c : ascii => inRange "a" "z" c || isDigit c || (c =? "-")%char)
    with isSlugChar.
  rewrite test_Plus_Class.
  destruct (negb (String.eqb s "") && allChars isSlugChar s) eqn:E; simpl.
  - apply andb_prop in E as [Hne Ha]. apply negb_true_iff, String.eqb_neq in Hne.
    split; [intro H; injection H as <-; auto | intros (-> & _); reflexivity].
  - split; [discriminate |]. intros (_ & Hne & Ha).
    apply String.eqb_neq in Hne. rewrite Hne, Ha in E. discriminate.
Qed.

(* ================================================================== *)
(** * Further properties: email and mobile identifiers *)
(* ================================================================== *)

(** What a match of the email pattern is made of. *)
Lemma emailPattern_facts (s : string) :
  Matches emailPattern s ->
  s <> "" /\ allChars notWhiteSpace s = true /\ allChars isDigit s = false.
Proof.
  intro H. split; [| split].
  - unfold emailPattern in H.
    apply Matches_Seq_inv in H as (s1 & s2 & -> & H1 & _).
    apply Matches_Plus_Class in H1 as [Hne _].
    destruct s1; [now elim Hne | discriminate].
  - apply (Matches_classesWithin _ _ _ H). classes_by_char.
  - unfold emailPattern in H.
    apply Matches_Seq_inv in H as (s1 & s2 & -> & _ & H).
    apply Matches_Seq_inv in H as (s3 & s4 & -> & H3 & _).
    apply Matches_Class_inv in H3 as (c & -> & Hc).
    apply Ascii.eqb_eq in Hc. subst c.
    rewrite !allChars_app. simpl. apply andb_false_r.
Qed.

Lemma emailPattern_toLowerCase (s : string) :
  Matches emailPattern s -> Matches emailPattern (toLowerCase s).
Proof. intro H. apply (Matches_toLowerCase _ _ H). classes_by_char. Qed.

(** What [emailNormalized] accepts. *)
Lemma emailNormalized_success (label : option string) (msg : option MessageArg)
    (s o : string) :
  safeParse (emailNormalized label msg) (JString s) = success o
  <-> s <> "" /\ o = toLowerCase (trim s) /\ test emailPattern o = true.
Proof.
  unfold emailNormalized, requiredString. run_pipeline.
  destruct (test emailPattern (toLowerCase (trim s))) eqn:E;
    destruct s as [|c s]; simpl; rewrite ?E; simpl; split;
    try discriminate;
    try (intros [H _]; now elim H).
  - intro H. injection H as <-. repeat split; [discriminate | exact E].
  - intros (_ & -> & _). reflexivity.
  - intros (_ & -> & H). simpl in H. congruence.
Qed.

(** X7: the normalization of [emailNormalized] is idempotent: whatever it
    returns is in lower case and free of white space, and is accepted again
    with itself as output. *)
Theorem emailNormalized_is_idempotent :
  forall (label : option string) (msg : option MessageArg) (s o : string),
  safeParse (emailNormalized label msg) (JString s) = success o ->
  toLowerCase o = o /\ allChars notWhiteSpace o = true /\
  safeParse (emailNormalized label msg) (JString o) = success o.
Proof.
  intros label msg s o H.
  apply emailNormalized_success in H as (Hne & -> & Ht).
  pose proof Ht as Hm. apply test_Matches in Hm.
  destruct (emailPattern_facts _ Hm) as (Hne' & Hw & _).
  split; [apply toLowerCase_idem | split; [exact Hw |]].
  apply emailNormalized_success.
  rewrite (trim_fixed _ Hw), toLowerCase_idem. auto.
Qed.

Lemma emailNormalized_witness :
  safeParse (emailNormalized None None) (JString "  Ada@Example.COM ")
  = success "ada@example.com" /\
  safeParse (emailNormalized None None) (JString "ada@example.com")
  = success "ada@example.com".
Proof.
  split; [reflexivity |].
  exact (proj2 (proj2 (emailNormalized_is_idempotent None None
                         "  Ada@Example.COM " "ada@example.com" eq_refl))).
Defined.

(** What [inMobile] accepts. *)
Lemma inMobile_success (label : option string) (msg : option MessageArg) (s o : string) :
  safeParse (inMobile label msg) (JString s) = success o
  <-> s <> "" /\
      o = (let v := removeAll spaceOrHyphen s in
           if startsWith "+91" v then slice 3 v else v) /\
      tenDigitsFirst6to9 o = true.
Proof.
  unfold inMobile, requiredString.
  destruct s as [|c s]; run_pipeline; cbn [String.length Nat.ltb Nat.leb]; run_pipeline.
  - split; [discriminate | intros [H _]; now elim H].
  - rewrite indianMobilePattern_spec.
    set (v := removeAll spaceOrHyphen (String c s)).
    set (rest := if startsWith "+91" v then slice 3 v else v).
    destruct (tenDigitsFirst6to9 rest) eqn:E; split; try discriminate.
    + intro H. injection H as <-. repeat split; [discriminate | exact E].
    + intros (_ & -> & _). reflexivity.
    + intros (_ & -> & H). congruence.
Qed.

(** A ten-digit mobile number is left as it is by the stripping steps and
    is not an email. *)
Lemma mobile_number_facts (o : string) :
  tenDigitsFirst6to9 o = true ->
  o <> "" /\ allChars isDigit o = true /\
  removeAll spaceOrHyphen o = o /\ trim o = o /\
  startsWith "+91" o = false /\ test emailPattern o = false.
Proof.
  intro H. destruct o as [|c r]; [discriminate |].
  simpl in H. apply andb_prop in H as [H Hr]. apply andb_prop in H as [Hc Hl].
  assert (Hd : allChars isDigit (String c r) = true).
  { simpl. rewrite Hr. replace (isDigit c) with true; [reflexivity |].
    revert Hc. by_char c. }
  split; [discriminate | split; [exact Hd |]].
  split; [| split; [| split]].
  - apply removeAll_fixed. revert Hd. apply allChars_impl. intro x. by_char x.
  - apply trim_fixed. revert Hd. apply allChars_impl. intro x. by_char x.
  - revert Hc. by_char c.
  - destruct (test emailPattern (String c r)) eqn:E; [| reflexivity].
    apply test_Matches, emailPattern_facts in E as (_ & _ & E). congruence.
Qed.

(** X8: whatever [inMobile] accepts it returns as ten digits, the first one
    in 6-9, and that output is accepted again with itself as output. *)
Theorem inMobile_output_is_ten_digits :
  forall (label : option string) (msg : option MessageArg) (s o : string),
  safeParse (inMobile label msg) (JString s) = success o ->
  tenDigitsFirst6to9 o = true /\
  safeParse (inMobile label msg) (JString o) = success o.
Proof.
  intros label msg s o H.
  apply inMobile_success in H as (_ & _ & Ht).
  split; [exact Ht |].
  destruct (mobile_number_facts o Ht) as (Hne & _ & Hr & _ & Hs & _).
  apply inMobile_success. cbv zeta. rewrite Hr, Hs. auto.
Qed.

Lemma inMobile_witness :
  safeParse (inMobile None None) (JString "+91 98765-43210") = success "9876543210" /\
  tenDigitsFirst6to9 "9876543210" = true /\
  safeParse (inMobile None None) (JString "9876543210") = success "9876543210".
Proof.
  split; [reflexivity |].
  exact (inMobile_output_is_ten_digits None None "+91 98765-43210" "9876543210" eq_refl).
Defined.

(** The input of [emailOrMobileNormalized] once stripped. *)
Lemma emailOrMobileNormalized_eval (label : option string) (msg : option MessageArg)
    (raw : string) :
  let stripped := removeAll spaceOrHyphen (trim raw) in
  let rest := if startsWith "+91" stripped then slice 3 stripped else stripped in
  safeParse (emailOrMobileNormalized label msg) (JString raw)
  = if test emailPattern rest
    then success {| type := email; value := toLowerCase rest |}
    else if tenDigitsFirst6to9 rest
         then success {| type := mobile; value := rest |}
         else failure
                [ {| code := custom; received := None;
                     message :=
                       messageFor validation msg
                         (defaultTo "Identifier" label
                            ++ " must be a valid email or mobile") |} ].
Proof.
  cbv zeta. unfold emailOrMobileNormalized. run_pipeline.
  rewrite indianMobilePattern_spec.
  set (stripped := removeAll spaceOrHyphen (trim raw)).
  set (rest := if startsWith "+91" stripped then slice 3 stripped else stripped).
  destruct (test emailPattern rest) eqn:He; simpl; rewrite ?He; [reflexivity |].
  destruct (tenDigitsFirst6to9 rest) eqn:Hm; simpl; rewrite ?He; reflexivity.
Qed.

Lemma stripped_is_clean (raw : string) :
  let stripped := removeAll spaceOrHyphen (trim raw) in
  let rest := if startsWith "+91" stripped then slice 3 stripped else stripped in
  allChars (fun c => negb (spaceOrHyphen c)) rest = true.
Proof.
  cbv zeta. destruct (startsWith "+91" _); [apply allChars_slice |];
    apply removeAll_none.
Qed.

(** X9: [inMobile] and [emailOrMobileNormalized] agree on mobile numbers:
    whatever [inMobile] accepts, [emailOrMobileNormalized] accepts too, tagged
    as a mobile with the same ten digits. *)
Theorem inMobile_agrees_with_emailOrMobileNormalized :
  forall (label label' : option string) (msg msg' : option MessageArg) (s o : string),
  safeParse (inMobile label msg) (JString s) = success o ->
  safeParse (emailOrMobileNormalized label' msg') (JString s)
  = success {| type := mobile; value := o |}.
Proof.
  intros label label' msg msg' s o H.
  apply inMobile_success in H as (_ & Ho & Ht). cbv zeta in Ho.
  rewrite emailOrMobileNormalized_eval. cbv zeta. rewrite removeAll_trim, <- Ho.
  destruct (mobile_number_facts o Ht) as (_ & _ & _ & _ & _ & He).
  rewrite He, Ht. reflexivity.
Qed.

Lemma inMobile_agrees_witness :
  safeParse (inMobile None None) (JString "+91 98765-43210") = success "9876543210" /\
  safeParse (emailOrMobileNormalized None None) (JString "+91 98765-43210")
  = success {| type := mobile; value := "9876543210" |}.
Proof.
  split; [reflexivity |].
  exact (inMobile_agrees_with_emailOrMobileNormalized None None None None
           "+91 98765-43210" "9876543210" eq_refl).
Defined.

Lemma normalized_value_is_clean :
  forall (label : option string) (msg : option MessageArg) (raw : string)
         (out : Identifier),
  safeParse (emailOrMobileNormalized label msg) (JString raw) = success out ->
  allChars (fun c => negb (spaceOrHyphen c)) (value out) = true /\
  toLowerCase (value out) = value out.
Proof.
  intros label msg raw out H.
  rewrite emailOrMobileNormalized_eval in H. cbv zeta in H.
  pose proof (stripped_is_clean raw) as Hc. cbv zeta in Hc.
  set (rest := if startsWith "+91" (removeAll spaceOrHyphen (trim raw))
               then slice 3 (removeAll spaceOrHyphen (trim raw))
               else removeAll spaceOrHyphen (trim raw)) in *.
  destruct (test emailPattern rest).
  - injection H as <-. simpl. split; [| apply toLowerCase_idem].
    revert Hc. apply allChars_toLowerCase. intro c. by_char c.
  - destruct (tenDigitsFirst6to9 rest) eqn:Ht; [| discriminate].
    injection H as <-. simpl. split; [exact Hc |].
    destruct (mobile_number_facts rest Ht) as (_ & Hd & _).
    apply (toLowerCase_fixed isDigit); [| exact Hd]. intro c. by_char c.
Qed.

(** X10: the value [emailOrMobileNormalized] returns never holds white
    space or a hyphen, email or mobile: hyphens are removed before the input
    is recognised, so an email address written with a hyphen comes back
    without it.  The value is in lower case. *)
Theorem emailOrMobileNormalized_value_has_no_hyphen :
  forall (label : option string) (msg : option MessageArg) (raw : string)
         (out : Identifier),
  safeParse (emailOrMobileNormalized label msg) (JString raw) = success out ->
  allChars (fun c => negb (spaceOrHyphen c)) (value out) = true /\
  toLowerCase (value out) = value out.
Proof. exact normalized_value_is_clean. Qed.

Lemma emailOrMobileNormalized_hyphen_witness :
  safeParse (emailOrMobileNormalized None None) (JString "Anne-Marie@my-shop.in")
  = success {| type := email; value := "annemarie@myshop.in" |} /\
  allChars (fun c => negb (spaceOrHyphen c)) "annemarie@myshop.in" = true.
Proof.
  split; [reflexivity |].
  exact (proj1 (emailOrMobileNormalized_value_has_no_hyphen None None
                  "Anne-Marie@my-shop.in"
                  {| type := email; value := "annemarie@myshop.in" |} eq_refl)).
Defined.

(** X11: the normalization of [emailOrMobileNormalized] is idempotent on
    every value that does not itself begin with "+91": such a value, given
    back as input, is accepted with the same tagged output.  A value that
    begins with "+91" loses the prefix again. *)
Theorem emailOrMobileNormalized_is_idempotent :
  (forall (label : option string) (msg : option MessageArg) (raw : string)
          (out : Identifier),
     safeParse (emailOrMobileNormalized label msg) (JString raw) = success out ->
     startsWith "+91" (value out) = false ->
     safeParse (emailOrMobileNormalized label msg) (JString (value out)) = success out) /\
  safeParse (emailOrMobileNormalized None None) (JString "+91+91a@b.co")
  = success {| type := email; value := "+91a@b.co" |} /\
  safeParse (emailOrMobileNormalized None None) (JString "+91a@b.co")
  = success {| type := email; value := "a@b.co" |}.
Proof.
  split; [| split; reflexivity].
  intros label msg raw out H Hp.
  destruct (normalized_value_is_clean label msg raw out H) as [Hc Hl].
  assert (Hw : allChars notWhiteSpace (value out) = true).
  { revert Hc. apply allChars_impl. intro c. by_char c. }
  rewrite emailOrMobileNormalized_eval in H. cbv zeta in H.
  rewrite emailOrMobileNormalized_eval. cbv zeta.
  rewrite (trim_fixed _ Hw), (removeAll_fixed _ _ Hc), Hp.
  set (rest := if startsWith "+91" (removeAll spaceOrHyphen (trim raw))
               then slice 3 (removeAll spaceOrHyphen (trim raw))
               else removeAll spaceOrHyphen (trim raw)) in *.
  destruct (test emailPattern rest) eqn:He.
  - injection H as <-. simpl in *.
    apply test_Matches, emailPattern_toLowerCase, test_Matches in He.
    rewrite He, toLowerCase_idem. reflexivity.
  - destruct (tenDigitsFirst6to9 rest) eqn:Ht; [| discriminate].
    injection H as <-. simpl in *. rewrite He, Ht. reflexivity.
Qed.

Lemma emailOrMobileNormalized_idempotent_witness :
  startsWith "+91" "a@b.com" = false /\
  safeParse (emailOrMobileNormalized None None) (JString "a@b.com")
  = success {| type := email; value := "a@b.com" |}.
Proof.
  split; [reflexivity |].
  exact (proj1 emailOrMobileNormalized_is_idempotent None None "A@B.com"
           {| type := email; value := "a@b.com" |} eq_refl eq_refl).
Defined.

(** What the base [emailOrMobile] accepts. *)
Lemma emailOrMobile_success (label : option string) (msg : option MessageArg)
    (s o : string) :
  safeParse (emailOrMobile label msg) (JString s) = success o
  <-> o = s /\
      (test emailPattern s || (String.length s =? 10)%nat && allChars isDigit s) = true.
Proof.
  unfold emailOrMobile. run_pipeline.
  change (Class (inRange "0" "9")) with (Class isDigit).
  rewrite test_Repeat_Class.
  destruct (test emailPattern s || (String.length s =? 10)%nat && allChars isDigit s);
    split; try discriminate.
  - intro H. injection H as <-. auto.
  - intros [-> _]. reflexivity.
  - intros [_ H]. discriminate.
Qed.

(** X12: the base [emailOrMobile] accepts, unchanged, every value the
    normalized variant returns; it is the weaker of the two, since it also
    accepts ten digits that begin with 0-5, which the normalized variant
    rejects. *)
Theorem emailOrMobile_accepts_normalized_values :
  (forall (label label' : option string) (msg msg' : option MessageArg)
          (raw : string) (out : Identifier),
     safeParse (emailOrMobileNormalized label msg) (JString raw) = success out ->
     safeParse (emailOrMobile label' msg') (JString (value out)) = success (value out)) /\
  (forall (label label' : option string) (msg msg' : option MessageArg)
          (c : ascii) (s : string),
     inRange "0" "5" c = true -> String.length s = 9 -> allChars isDigit s = true ->
     safeParse (emailOrMobile label msg) (JString (String c s)) = success (String c s) /\
     raises Validation
       (safeParse (emailOrMobileNormalized label' msg') (JString (String c s))) = true).
Proof.
  split.
  - intros label label' msg msg' raw out H.
    rewrite emailOrMobileNormalized_eval in H. cbv zeta in H.
    apply emailOrMobile_success. split; [reflexivity |].
    set (rest := if startsWith "+91" (removeAll spaceOrHyphen (trim raw))
                 then slice 3 (removeAll spaceOrHyphen (trim raw))
                 else removeAll spaceOrHyphen (trim raw)) in *.
    destruct (test emailPattern rest) eqn:He.
    + injection H as <-. simpl.
      apply test_Matches, emailPattern_toLowerCase, test_Matches in He.
      now rewrite He.
    + destruct (tenDigitsFirst6to9 rest) eqn:Ht; [| discriminate].
      injection H as <-. simpl.
      destruct (mobile_number_facts rest Ht) as (_ & Hd & _).
      destruct rest as [|c r]; [discriminate |]. unfold tenDigitsFirst6to9 in Ht.
      apply andb_prop in Ht as [Ht _]. apply andb_prop in Ht as [_ Hl].
      rewrite Hl, Hd. apply orb_true_r.
  - intros label label' msg msg' c s Hc Hl Hs.
    assert (Hd : allChars isDigit (String c s) = true).
    { simpl. rewrite Hs. replace (isDigit c) with true; [reflexivity |].
      revert Hc. by_char c. }
    split.
    + apply emailOrMobile_success. split; [reflexivity |].
      simpl String.length. rewrite Hl, Hd. apply orb_true_r.
    + rewrite emailOrMobileNormalized_eval. cbv zeta.
      assert (Hw : allChars notWhiteSpace (String c s) = true)
        by (revert Hd; apply allChars_impl; intro x; by_char x).
      assert (Hh : allChars (fun x => negb (spaceOrHyphen x)) (String c s) = true)
        by (revert Hd; apply allChars_impl; intro x; by_char x).
      rewrite (trim_fixed _ Hw), (removeAll_fixed _ _ Hh).
      replace (startsWith "+91" (String c s)) with false
        by (revert Hc; by_char c).
      destruct (test emailPattern (String c s)) eqn:He.
      { apply test_Matches, emailPattern_facts in He as (_ & _ & He). congruence. }
      replace (tenDigitsFirst6to9 (String c s)) with false; [reflexivity |].
      simpl. replace (inRange "6" "9" c) with false; [reflexivity |].
      revert Hc. by_char c.
Qed.

Lemma emailOrMobile_witness :
  inRange "0" "5" "0" = true /\ String.length "123456789" = 9 /\
  allChars isDigit "123456789" = true /\
  safeParse (emailOrMobile None None) (JString "0123456789") = success "0123456789" /\
  raises Validation
    (safeParse (emailOrMobileNormalized None None) (JString "0123456789")) = true.
Proof.
  split; [reflexivity | split; [reflexivity | split; [reflexivity |]]].
  exact (proj2 emailOrMobile_accepts_normalized_values None None None None
           "0"%char "123456789" eq_refl eq_refl eq_refl).
Defined.

(* ================================================================== *)
(** * Further properties: message resolution in src/index.ts *)
(* ================================================================== *)

(** X13: in [src/index.ts] an empty string given as the override counts for
    nothing: each factory builds the very schema it builds with no override,
    so the default messages are shown. *)
Theorem empty_override_is_no_override :
  forall (Date_parse : string -> number) (options : list string) (label : option string),
  let empty := Some (Text "") in
  requiredString label empty = requiredString label None /\
  optionalString label empty = optionalString label None /\
  requiredNumber label empty = requiredNumber label None /\
  positiveNumber label empty = positiveNumber label None /\
  optionalNumber label empty = optionalNumber label None /\
  boolean label empty = boolean label None /\
  optionalBoolean label empty = optionalBoolean label None /\
  Fragments.uuid label empty = Fragments.uuid label None /\
  optionalUUID label empty = optionalUUID label None /\
  Enum options label empty = Enum options label None /\
  dateString Date_parse label empty = dateString Date_parse label None /\
  optionalDate Date_parse label empty = optionalDate Date_parse label None /\
  slug label empty = slug label None /\
  emailOrMobile label empty = emailOrMobile label None.
Proof. intros Date_parse options label. cbv zeta. repeat split. Qed.

(** X14: [requiredString] reports the empty string with the required
    message when the override gives one and gives no validation message: the
    text for an empty value falls back to the required override before it
    falls back to the default. *)
Theorem requiredString_empty_uses_required_message :
  forall (label : option string) (inv : option string) (r : string),
  r <> "" ->
  let f := requiredString label
             (Some (PerClass {| required := Some r; invalid := inv;
                                validation := None |})) in
  failsWith Validation r (safeParse f (JString "")) /\
  failsWith Required r (safeParse f JUndefined).
Proof.
  intros label inv r Hr. cbv zeta.
  destruct r as [|c r]; [now elim Hr |].
  split; fails_by_computation.
Qed.

Lemma requiredString_empty_witness :
  "Please fill in your name" <> "" /\
  failsWith Validation "Please fill in your name"
    (safeParse
       (requiredString (Some "Name")
          (Some (PerClass {| required := Some "Please fill in your name";
                             invalid := None; validation := None |})))
       (JString "")).
Proof.
  split; [discriminate |].
  exact (proj1 (requiredString_empty_uses_required_message (Some "Name") None
                  "Please fill in your name" ltac:(discriminate))).
Defined.

(** X15: [positiveNumber], [boolean] and [requiredSlugNormalized] never show
    a message of their own for a missing value: whatever the label and the
    override (a required entry included), [undefined] fails with the
    runtime's default text "Required". *)
Theorem missing_value_shows_runtime_default :
  forall (label : option string) (msg : option MessageArg),
  failsWith Required "Required" (safeParse (positiveNumber label msg) JUndefined) /\
  failsWith Required "Required" (safeParse (boolean label msg) JUndefined) /\
  failsWith Required "Required" (safeParse (requiredSlugNormalized label msg) JUndefined).
Proof. intros label msg. repeat split; fails_by_computation. Qed.

Lemma includes_In (x : string) (xs : list string) : includes x xs = true <-> In x xs.
Proof.
  unfold includes. rewrite existsb_exists. split.
  - intros (y & Hy & E). apply String.eqb_eq in E. now subst.
  - intro H. exists x. split; [exact H | apply String.eqb_refl].
Qed.

(** X16: for any options, label and override, [Enum] accepts exactly the
    strings of the option list, unchanged, and answers every other input with
    exactly one issue carrying one and the same message, whatever the
    input. *)
Theorem Enum_accepts_exactly_its_options :
  forall (options : list string) (label : option string) (msg : option MessageArg),
  (forall v o, safeParse (Enum options label msg) v = success o
               <-> v = JString o /\ In o options) /\
  (exists text, forall v,
     (exists o, safeParse (Enum options label msg) v = success o) \/
     (exists i, safeParse (Enum options label msg) v = failure [i] /\ message i = text)).
Proof.
  intros options label msg. split.
  - intros v o. unfold Enum. run_pipeline.
    destruct v as [| |b|n|s|items|fields];
      try (split; [discriminate | intros [H _]; discriminate H]).
    destruct (includes s options) eqn:E.
    + apply includes_In in E. split.
      * intro H. injection H as <-. auto.
      * intros [H _]. injection H as ->. reflexivity.
    + split; [discriminate |]. intros [H Hin]. injection H as ->.
      apply includes_In in Hin. congruence.
  - eexists. intro v. unfold Enum. run_pipeline.
    destruct v as [| |b|n|s|items|fields];
      try (right; eexists; split; reflexivity).
    destruct (includes s options); [left; eauto | right; eexists; split; reflexivity].
Qed.

(* ================================================================== *)
(** * Further properties: money *)
(* ================================================================== *)

(** X17: [money] takes a string of white space only, the empty string
    included, for the amount zero: [Number] of such a string is 0. *)
Theorem money_accepts_blank_as_zero :
  forall (label : option string) (msg : option MessageArg) (s : string),
  allChars isWhiteSpace s = true ->
  safeParse (money label msg) (JString s) = success 0%float.
Proof.
  intros label msg s H.
  assert (E : Number s = zero) by (unfold Number; now rewrite (trim_whitespace s H)).
  rewrite (money_string label msg s); rewrite E; reflexivity.
Qed.

Lemma money_blank_witness :
  allChars isWhiteSpace "  " = true /\
  safeParse (money None None) (JString "  ") = success 0%float.
Proof.
  split; [reflexivity |].
  exact (money_accepts_blank_as_zero None None "  " eq_refl).
Defined.

(** X18: [money] never reports a missing value or a wrong type as such: no
    input at all makes it raise an issue of class Required or InvalidType
    (an absent amount and a boolean are both the union's "Invalid input"). *)
Theorem money_never_raises_required_or_invalid_type :
  forall (label : option string) (msg : option MessageArg) (v : JsValue),
  raises Required (safeParse (money label msg) v) = false /\
  raises InvalidType (safeParse (money label msg) v) = false /\
  safeParse (money label msg) JUndefined
  = failure [ {| code := invalid_union; received := None; message := "Invalid input" |} ].
Proof.
  intros label msg v. unfold money.
  repeat split; destruct v as [| |b|n|s|items|fields]; run_parse; try reflexivity;
    case_conditions; reflexivity.
Qed.

(* ================================================================== *)
(** * Further properties: the coercion helpers *)
(* ================================================================== *)

(** What [optionalNumberCoerce] returns on every input. *)
Lemma optionalNumberCoerce_eval (ToNumber_object : JsValue -> number)
    (label : option string) (msg : option MessageArg) (v : JsValue) :
  safeParse (optionalNumberCoerce ToNumber_object label msg) v
  = match v with
    | JUndefined | JNull =>
        failure [ {| code := invalid_type; received := Some ZodParsedType.undefined;
                     message := "Required" |} ]
    | _ =>
        if isTheString "" v
        then failure [ {| code := invalid_type; received := Some ZodParsedType.undefined;
                          message := "Required" |} ]
        else if isNaN (ToNumber ToNumber_object v)
             then failure [ {| code := invalid_type; received := Some ZodParsedType.nan;
                               message := "Expected number, received nan" |} ]
             else success (Some (ToNumber ToNumber_object v))
    end.
Proof.
  unfold optionalNumberCoerce, coerceNumber, optionalNumber.
  unfold safeParse, _parse, ZodPipeline_parse, _parse, ZodPreprocess_parse. simpl.
  assert (Hnum : forall n : number,
            match
              (let '(r, issues) := _parse (z_number None) (JNumber n) [] in
               match r with
               | OK x =>
                   _parse
                     (optionalNumber (Some (defaultTo "This field" label)) msg)
                     (JNumber x) issues
               | _ => (INVALID, issues)
               end)
            with
            | (OK x, _) => success x
            | (_, issues) => failure issues
            end
            = if isNaN n
              then failure [ {| code := invalid_type;
                                received := Some ZodParsedType.nan;
                                message := "Expected number, received nan" |} ]
              else success (Some n)).
  { intro n. unfold optionalNumber. run_parse.
    destruct (isNaN n) eqn:E; simpl; rewrite ?E; reflexivity. }
  destruct v as [| |b|n|s|items|fields]; try reflexivity.
  - destruct b; reflexivity.
  - exact (Hnum n).
  - destruct s as [|c s]; [reflexivity |]. exact (Hnum (Number (String c s))).
  - exact (Hnum (ToNumber_object (JArray items))).
  - exact (Hnum (ToNumber_object (JObject fields))).
Qed.

(** X19: [optionalNumberCoerce] is not optional: an absent value, [null] and
    the empty string are turned into [undefined] and then refused by the
    number schema of the coercion step, with the runtime's "Required"; no
    input at all is accepted as an absent number. *)
Theorem optionalNumberCoerce_refuses_absent_values :
  forall (ToNumber_object : JsValue -> number) (label : option string)
         (msg : option MessageArg),
  let f := optionalNumberCoerce ToNumber_object label msg in
  failsWith Required "Required" (safeParse f JUndefined) /\
  failsWith Required "Required" (safeParse f JNull) /\
  failsWith Required "Required" (safeParse f (JString "")) /\
  (forall v, safeParse f v <> success None).
Proof.
  intros host label msg. cbv zeta.
  repeat split; try fails_by_computation.
  intro v. rewrite optionalNumberCoerce_eval.
  destruct v as [| |b|n|s|items|fields]; try discriminate;
    case_conditions; discriminate.
Qed.

(** X20: the label and the override of [optionalNumberCoerce] are never
    used: every failure carries the runtime's own message, and the result is
    the same for every label and override.  A present value other than the
    empty string is accepted exactly when [Number] of it is not NaN, with that
    number as output. *)
Theorem optionalNumberCoerce_ignores_label :
  forall (ToNumber_object : JsValue -> number) (label : option string)
         (msg : option MessageArg) (v : JsValue),
  safeParse (optionalNumberCoerce ToNumber_object label msg) v
  = safeParse (optionalNumberCoerce ToNumber_object None None) v /\
  (forall s, s <> "" ->
     safeParse (optionalNumberCoerce ToNumber_object label msg) (JString s)
     = if isNaN (Number s)
       then failure [ {| code := invalid_type; received := Some ZodParsedType.nan;
                         message := "Expected number, received nan" |} ]
       else success (Some (Number s))).
Proof.
  intros host label msg v. split.
  - now rewrite !optionalNumberCoerce_eval.
  - intros s Hs. rewrite optionalNumberCoerce_eval. simpl.
    destruct s as [|c s]; [now elim Hs | reflexivity].
Qed.

Lemma optionalNumberCoerce_witness :
  "12" <> "" /\
  safeParse (optionalNumberCoerce (fun _ => nan) (Some "Age") None) (JString "12")
  = success (Some 12%float).
Proof.
  split; [discriminate |].
  exact (proj2 (optionalNumberCoerce_ignores_label (fun _ => nan) (Some "Age") None
                  JUndefined) "12" ltac:(discriminate)).
Defined.

(** What [booleanCoerce] returns on every input. *)
Lemma booleanCoerce_eval (label : option string) (msg : option MessageArg) (v : JsValue) :
  safeParse (booleanCoerce label msg) v
  = match preprocess coerceBoolean v with
    | JBoolean b => success b
    | w => failure [ makeIssue None w (invalid_type_data "boolean" (getParsedType w)) ]
    end.
Proof.
  unfold booleanCoerce, boolean.
  unfold safeParse, _parse, ZodPipeline_parse, _parse, ZodPreprocess_parse. simpl.
  destruct v as [| |b|n|s|items|fields]; try reflexivity; simpl.
  - destruct (PrimFloat.eqb n 1); [reflexivity |].
    destruct (PrimFloat.eqb n 0); reflexivity.
  - destruct (String.eqb s "true" || String.eqb s "1"); [reflexivity |].
    destruct (String.eqb s "false" || String.eqb s "0"); reflexivity.
Qed.

(** X21: [booleanCoerce] accepts as true the boolean true, the strings
    "true" and "1" and the number 1, and as false the boolean false, the
    strings "false" and "0" and the number 0 (negative zero included); these
    are all it accepts. *)
Theorem booleanCoerce_accepted_values :
  forall (label : option string) (msg : option MessageArg) (v : JsValue),
  (safeParse (booleanCoerce label msg) v = success true
   <-> v = JBoolean true \/ v = JString "true" \/ v = JString "1"
       \/ exists n, v = JNumber n /\ PrimFloat.eqb n 1 = true) /\
  (safeParse (booleanCoerce label msg) v = success false
   <-> v = JBoolean false \/ v = JString "false" \/ v = JString "0"
       \/ exists n, v = JNumber n /\ PrimFloat.eqb n 0 = true).
Proof.
  intros label msg v. rewrite booleanCoerce_eval.
  assert (H10 : forall n, PrimFloat.eqb n 1 = true -> PrimFloat.eqb n 0 = true -> False).
  { intros n H1 H0. rewrite FloatAxioms.eqb_spec in H1, H0.
    change (Prim2SF 1) with (S754_finite false 4503599627370496 (-52)) in H1.
    change (Prim2SF 0) with (S754_zero false) in H0.
    destruct (Prim2SF n) as [s|s| |s m e]; try discriminate;
      destruct s; discriminate. }
  destruct v as [| |b|n|s|items|fields]; simpl.
  - split; (split; [discriminate | intros [H|[H|[H|(n & H & _)]]]; discriminate H]).
  - split; (split; [discriminate | intros [H|[H|[H|(n & H & _)]]]; discriminate H]).
  - destruct b; split; split; try discriminate; auto;
      intros [H|[H|[H|(n & H & _)]]]; discriminate H.
  - destruct (PrimFloat.eqb n 1) eqn:E1; [| destruct (PrimFloat.eqb n 0) eqn:E0].
    + split; split; try discriminate.
      * intros _. right; right; right. eauto.
      * reflexivity.
      * intros [H|[H|[H|(m & H & Hm)]]]; try discriminate H.
        injection H as <-. elim (H10 n E1 Hm).
    + split; split; try discriminate.
      * intros [H|[H|[H|(m & H & Hm)]]]; try discriminate H.
        injection H as <-. congruence.
      * intros _. right; right; right. eauto.
      * reflexivity.
    + split; (split; [discriminate |]);
        intros [H|[H|[H|(m & H & Hm)]]]; try discriminate H;
        injection H as <-; congruence.
  - destruct (String.eqb_spec s "true") as [->|Ht]; simpl.
    { split; split; auto; try discriminate.
      intros [H|[H|[H|(n & H & _)]]]; discriminate H. }
    destruct (String.eqb_spec s "1") as [->|H1]; simpl.
    { split; split; auto; try discriminate.
      intros [H|[H|[H|(n & H & _)]]]; discriminate H. }
    destruct (String.eqb_spec s "false") as [->|Hf]; simpl.
    { split; split; auto; try discriminate.
      intros [H|[H|[H|(n & H & _)]]]; discriminate H. }
    destruct (String.eqb_spec s "0") as [->|H0]; simpl.
    { split; split; auto; try discriminate.
      intros [H|[H|[H|(n & H & _)]]]; discriminate H. }
    split; (split; [discriminate |]);
      intros [H|[H|[H|(n & H & _)]]]; try discriminate H;
      injection H as ->; congruence.
  - split; (split; [discriminate | intros [H|[H|[H|(n & H & _)]]]; discriminate H]).
  - split; (split; [discriminate | intros [H|[H|[H|(n & H & _)]]]; discriminate H]).
Qed.

(** X22: the label and the override of [booleanCoerce] are never used: a
    value it cannot coerce is refused by the boolean schema of the coercion
    step, with the runtime's own message (never "label must be a boolean"),
    and the result is the same for every label and override. *)
Theorem booleanCoerce_ignores_label :
  forall (label : option string) (msg : option MessageArg) (v : JsValue),
  safeParse (booleanCoerce label msg) v = safeParse (booleanCoerce None None) v /\
  failsWith Required "Required" (safeParse (booleanCoerce label msg) JUndefined) /\
  failsWith InvalidType "Expected boolean, received string"
    (safeParse (booleanCoerce label msg) (JString "yes")).
Proof.
  intros label msg v. split; [now rewrite !booleanCoerce_eval |].
  split; fails_by_computation.
Qed.

(* ================================================================== *)
(** * Further properties: dates, arrays and brands *)
(* ================================================================== *)

Lemma ltb_irreflexive (x : number) : PrimFloat.ltb x x = false.
Proof.
  rewrite ltb_spec. unfold SFltb.
  destruct (Prim2SF x) as [s|s| |s m e]; simpl; try reflexivity;
    destruct s; rewrite ?Z.compare_refl, ?Pos.compare_cont_refl; reflexivity.
Qed.

Lemma ltb_true_not_NaN (a b : number) :
  PrimFloat.ltb a b = true -> isNaN a = false /\ isNaN b = false.
Proof.
  rewrite ltb_spec. intro H. split.
  - destruct (isNaN a) eqn:E; [| reflexivity].
    apply isNaN_spec in E. rewrite E in H. discriminate.
  - destruct (isNaN b) eqn:E; [| reflexivity].
    apply isNaN_spec in E. rewrite E in H.
    destruct (Prim2SF a) as [s|s| |s m e]; discriminate.
Qed.

Lemma leb_true_not_NaN (a b : number) :
  PrimFloat.leb a b = true -> isNaN a = false /\ isNaN b = false.
Proof.
  rewrite leb_spec. intro H. split.
  - destruct (isNaN a) eqn:E; [| reflexivity].
    apply isNaN_spec in E. rewrite E in H. discriminate.
  - destruct (isNaN b) eqn:E; [| reflexivity].
    apply isNaN_spec in E. rewrite E in H.
    destruct (Prim2SF a) as [s|s| |s m e]; discriminate.
Qed.

(** What [isoDateTime] followed by one more refinement accepts. *)
Lemma dateAfter_success (Date_parse : string -> number) (minISO : string)
    (label : option string) (s o : string) :
  safeParse (dateAfter Date_parse minISO label) (JString s) = success o
  <-> o = s /\ s <> "" /\ gt (Date_parse s) (Date_parse minISO) = true.
Proof.
  unfold dateAfter, isoDateTime, requiredString.
  destruct s as [|c s]; run_pipeline; cbn [String.length Nat.ltb Nat.leb]; run_pipeline.
  - case_conditions; split; try discriminate; intros (_ & H & _); now elim H.
  - destruct (gt (Date_parse (String c s)) (Date_parse minISO)) eqn:Eg.
    + destruct (ltb_true_not_NaN _ _ Eg) as [_ Hn]. rewrite Hn. simpl.
      rewrite Eg. split.
      * intro H. injection H as <-. repeat split. discriminate.
      * intros (-> & _). reflexivity.
    + destruct (isNaN (Date_parse (String c s))); simpl; rewrite Eg; simpl;
        (split; [discriminate | intros (_ & _ & H); discriminate H]).
Qed.

(** X23: [dateAfter] accepts a string, unchanged, exactly when it is not
    empty and its time is strictly later than the threshold's.  So the
    threshold itself is never accepted, and with a threshold that does not
    parse as a date no input at all is accepted. *)
Theorem dateAfter_is_strict :
  forall (Date_parse : string -> number) (minISO : string) (label : option string),
  (forall s o, safeParse (dateAfter Date_parse minISO label) (JString s) = success o
               <-> o = s /\ s <> "" /\ gt (Date_parse s) (Date_parse minISO) = true) /\
  (forall o, safeParse (dateAfter Date_parse minISO label) (JString minISO) <> success o) /\
  (isNaN (Date_parse minISO) = true ->
   forall s o, safeParse (dateAfter Date_parse minISO label) (JString s) <> success o).
Proof.
  intros Date_parse minISO label. split; [apply dateAfter_success |]. split.
  - intros o H. apply dateAfter_success in H as (_ & _ & H).
    unfold gt in H. rewrite ltb_irreflexive in H. discriminate.
  - intros Hn s o H. apply dateAfter_success in H as (_ & _ & H).
    apply ltb_true_not_NaN in H as [H _]. congruence.
Qed.

Lemma dateAfter_witness :
  isNaN (Number "soon") = true /\
  safeParse (dateAfter Number "soon" None) (JString "1700000000000")
  <> success "1700000000000".
Proof.
  split; [reflexivity |].
  exact (proj2 (proj2 (dateAfter_is_strict Number "soon" None)) eq_refl
           "1700000000000" "1700000000000").
Defined.

(** When [isoDateTime] returns a valid result. *)
Lemma isoDateTime_valid (Date_parse : string -> number) (label : option string)
    (msg : option MessageArg) (v : JsValue) (issues : Issues) (o : string) :
  fst (_parse (isoDateTime Date_parse label msg) v issues) = OK o
  <-> v = JString o /\ o <> "" /\ isNaN (Date_parse o) = false.
Proof.
  unfold isoDateTime, requiredString.
  destruct v as [| |b|n|s|items|fields]; run_pipeline;
    try (split; [discriminate | intros [H _]; discriminate H]).
  destruct s as [|c s]; cbn [String.length Nat.ltb Nat.leb]; run_pipeline.
  - case_conditions; simpl; split; try discriminate;
      intros (H & Hne & _); injection H as <-; now elim Hne.
  - destruct (isNaN (Date_parse (String c s))) eqn:E; simpl; split; try discriminate.
    + intros (H & _ & Hn). injection H as <-. congruence.
    + intro H. injection H as <-. repeat split; [discriminate | exact E].
    + intros (H & _). injection H as <-. reflexivity.
Qed.

(** X24: [dateRange] accepts an object exactly when its [start] and [end]
    are non-empty strings and the time of [start] is at most the time of
    [end] (equal ends are accepted); the output is the pair of the two
    strings.  A start that does not parse is reported twice: as not a valid
    date and as out of order. *)
Theorem dateRange_accepts_ordered_ends :
  forall (Date_parse : string -> number),
  (forall (fields : list (string * JsValue)) (out : string * string),
     safeParse (dateRange Date_parse) (JObject fields) = success out
     <-> getProperty fields "start" = JString (fst out) /\
         getProperty fields "end" = JString (snd out) /\
         fst out <> "" /\ snd out <> "" /\
         PrimFloat.leb (Date_parse (fst out)) (Date_parse (snd out)) = true) /\
  (forall a b : string,
     a <> "" -> b <> "" -> isNaN (Date_parse a) = true -> isNaN (Date_parse b) = false ->
     safeParse (dateRange Date_parse) (JObject [("start", JString a); ("end", JString b)])
     = failure [ {| code := custom; received := None;
                    message := "Start date must be a valid date" |};
                 {| code := custom; received := None;
                    message := "Start date must be before or equal to end date" |} ]).
Proof.
  intro Date_parse. split.
  - intros fields [a b]. cbn [fst snd].
    unfold dateRange, safeParse.
    unfold _parse at 1. unfold ZodEffects_parse. cbn [effect schema refine].
    unfold _parse at 1. unfold ZodObject2_parse. cbn [z_object2 shape1 shape2 key1 key2].
    set (v1 := getProperty fields "start"). set (v2 := getProperty fields "end").
    pose proof (fun o => isoDateTime_valid Date_parse (Some "Start date") None v1 [] o) as H1.
    destruct (_parse (isoDateTime Date_parse (Some "Start date") None) v1 [])
      as [r1 i1].
    pose proof (fun o => isoDateTime_valid Date_parse (Some "End date") None v2 i1 o) as H2.
    destruct (_parse (isoDateTime Date_parse (Some "End date") None) v2 i1)
      as [r2 i2].
    cbn [fst] in H1, H2.
    destruct r1 as [x|x|]; destruct r2 as [y|y|]; cbn [mergeObject2 runEffect fst snd];
      try (split; [case_conditions; cbn; discriminate |];
           intros (Ha & Hb & Hna & Hnb & Hle);
           destruct (leb_true_not_NaN _ _ Hle) as [Hn1 Hn2];
           first [ assert (Hk : DIRTY x = OK a) by (apply H1; auto); discriminate Hk
                 | assert (Hk : @INVALID string = OK a) by (apply H1; auto); discriminate Hk
                 | assert (Hk : DIRTY y = OK b) by (apply H2; auto); discriminate Hk
                 | assert (Hk : @INVALID string = OK b) by (apply H2; auto); discriminate Hk ]).
    destruct (proj1 (H1 x) eq_refl) as (Hv1 & Hx & Hnx).
    destruct (proj1 (H2 y) eq_refl) as (Hv2 & Hy & Hny).
    destruct (PrimFloat.leb (Date_parse x) (Date_parse y)) eqn:Hle; cbn; split.
    + intro H. injection H as <- <-. auto.
    + intros (Ha & Hb & _). rewrite Hv1 in Ha. rewrite Hv2 in Hb.
      injection Ha as ->. injection Hb as ->. reflexivity.
    + discriminate.
    + intros (Ha & Hb & _ & _ & Hle'). rewrite Hv1 in Ha. rewrite Hv2 in Hb.
      injection Ha as ->. injection Hb as ->. congruence.
  - intros a b Ha Hb Hna Hnb.
    assert (Hle : PrimFloat.leb (Date_parse a) (Date_parse b) = false).
    { destruct (PrimFloat.leb (Date_parse a) (Date_parse b)) eqn:E; [| reflexivity].
      apply leb_true_not_NaN in E as [E _]. congruence. }
    unfold dateRange, isoDateTime, requiredString.
    destruct a as [|ca a]; [now elim Ha |]. destruct b as [|cb b]; [now elim Hb |].
    unfold safeParse, _parse, ZodEffects_parse, _parse, ZodObject2_parse.
    cbn [z_object2 shape1 shape2 key1 key2 getProperty String.eqb Ascii.eqb Bool.eqb
         effect schema refine].
    run_pipeline. cbn [String.length Nat.ltb Nat.leb]. run_pipeline.
    rewrite Hna. cbn. rewrite Hnb. cbn. rewrite Hle. reflexivity.
Qed.

Lemma dateRange_witness :
  "soon" <> "" /\ "20" <> "" /\ isNaN (Number "soon") = true /\ isNaN (Number "20") = false /\
  safeParse (dateRange Number) (JObject [("start", JString "soon"); ("end", JString "20")])
  = failure [ {| code := custom; received := None;
                 message := "Start date must be a valid date" |};
              {| code := custom; received := None;
                 message := "Start date must be before or equal to end date" |} ].
Proof.
  repeat (split; [first [discriminate | reflexivity] |]).
  apply (proj2 (dateRange_accepts_ordered_ends Number));
    first [discriminate | reflexivity].
Defined.

(** The results of the elements do not depend on the issues raised so
    far, for a framed element schema. *)
Lemma parseItems_results (S O : Type) (P : ZodType S O) (F : Framed S O) (s : S)
    (items : list JsValue) :
  forall issues,
  fst (parseItems s items issues) = map (fun item => fst (_parse s item [])) items.
Proof.
  induction items as [|item rest IH]; intro issues; simpl; [reflexivity |].
  rewrite (framed s item issues).
  destruct (_parse s item []) as [r acc]. cbn [fst snd].
  specialize (IH (issues ++ acc)%list).
  destruct (parseItems s rest (issues ++ acc)%list) as [rs acc']. cbn [fst] in *.
  now rewrite IH.
Qed.

Lemma mergeArray_valid (O : Type) (results : list (ParseReturn O)) (outs : list O) :
  mergeArray valid results = OK outs <-> results = map OK outs.
Proof.
  revert outs. induction results as [|r rs IH]; intro outs; simpl.
  - split.
    + intro H. injection H as <-. reflexivity.
    + intro H. destruct outs; [reflexivity | discriminate].
  - destruct r as [v|v|].
    + destruct (mergeArray valid rs) as [vs|vs|] eqn:E.
      * split.
        -- intro H. injection H as <-. simpl. f_equal. now apply IH.
        -- intro H. destruct outs as [|o outs]; [discriminate |].
           simpl in H. injection H as -> H. f_equal. f_equal.
           apply IH in H. congruence.
      * split; [discriminate |]. intro H. destruct outs as [|o outs]; [discriminate |].
        simpl in H. injection H as _ H. apply IH in H. discriminate.
      * split; [discriminate |]. intro H. destruct outs as [|o outs]; [discriminate |].
        simpl in H. injection H as _ H. apply IH in H. discriminate.
    + split.
      * destruct (mergeArray dirty rs); discriminate.
      * intro H. destruct outs; discriminate.
    + split; [discriminate |]. intro H. destruct outs; discriminate.
Qed.

(** X25: [nonEmptyArrayOf(schema)] refuses the empty array with its own
    message and accepts a non-empty array exactly when the element schema
    accepts every element; the output is the list of the elements' outputs,
    in order. *)
Theorem nonEmptyArrayOf_accepts_elementwise :
  forall (S O : Type) (P : ZodType S O) (F : Framed S O) (schema : S)
         (label : option string),
  failsWith Validation (defaultTo "Items" label ++ " must contain at least 1 item")
    (safeParse (nonEmptyArrayOf schema label) (JArray [])) /\
  (forall (items : list JsValue) (outs : list O),
     safeParse (nonEmptyArrayOf schema label) (JArray items) = success outs
     <-> items <> [] /\
         Forall2 (fun item o => safeParse schema item = success o) items outs).
Proof.
  intros S O P F schema label. split; [fails_by_computation |].
  intros items outs.
  assert (Helem : forall item o,
            safeParse schema item = success o <-> fst (_parse schema item []) = OK o).
  { intros item o. unfold safeParse.
    destruct (_parse schema item []) as [[v|v|] acc]; cbn [fst]; split;
      try discriminate; intro H; injection H as <-; reflexivity. }
  assert (Hall : map (fun item => fst (_parse schema item [])) items = map OK outs
                 <-> Forall2 (fun item o => safeParse schema item = success o) items outs).
  { revert outs. induction items as [|item rest IH]; intro outs; simpl.
    - split.
      + intro H. destruct outs; [constructor | discriminate].
      + intro H. inversion H. reflexivity.
    - split.
      + intro H. destruct outs as [|o outs]; [discriminate |].
        simpl in H. injection H as Ho Hr.
        constructor; [now apply Helem | now apply IH].
      + intro H. inversion H as [|x y l l' Hx Hl]; subst. simpl.
        f_equal; [now apply Helem | now apply IH]. }
  unfold nonEmptyArrayOf, safeParse, _parse, ZodArray_parse.
  cbn [z_array array_min minLength array_type].
  destruct items as [|item rest].
  - cbn. split; [discriminate | intros [H _]; now elim H].
  - cbn [List.length Nat.ltb Nat.leb].
    pose proof (parseItems_results S O P F schema (item :: rest) []) as Hr.
    destruct (parseItems schema (item :: rest) []) as [results acc]. cbn [fst] in Hr.
    subst results. split.
    + intro H. split; [discriminate |]. apply Hall.
      destruct (mergeArray valid _) as [vs|vs|] eqn:E; try discriminate.
      injection H as <-. now apply mergeArray_valid.
    + intros [_ H]. apply Hall in H. apply mergeArray_valid in H. now rewrite H.
Qed.

Lemma nonEmptyArrayOf_witness :
  safeParse (nonEmptyArrayOf (requiredString (Some "Tag") None) None)
    (JArray [JString "red"; JString "blue"])
  = success ["red"; "blue"] /\
  Forall2 (fun item o => safeParse (requiredString (Some "Tag") None) item = success o)
    [JString "red"; JString "blue"] ["red"; "blue"].
Proof.
  split; [reflexivity |].
  exact (proj2 (proj1 (proj2 (nonEmptyArrayOf_accepts_elementwise
                                ZodString string _ ZodString_Framed
                                (requiredString (Some "Tag") None) None)
                         [JString "red"; JString "blue"] ["red"; "blue"]) eq_refl)).
Defined.

(** What the two UUID fragments accept. *)
Lemma uuid_success (label : option string) (msg : option MessageArg) (s o : string) :
  safeParse (Fragments.uuid label msg) (JString s) = success o
  <-> o = s /\ test uuidRegex s = true.
Proof.
  unfold Fragments.uuid. run_pipeline.
  destruct (test uuidRegex s); simpl; split; try discriminate.
  - intro H. injection H as <-. auto.
  - intros [-> _]. reflexivity.
  - intros [_ H]. discriminate.
Qed.

Lemma uuidRegex_length (s : string) : test uuidRegex s = true -> String.length s = 36.
Proof.
  intro H. apply test_Matches in H. unfold uuidRegex in H.
  repeat match goal with
         | Hm : Matches (Seq _ _) _ |- _ =>
             apply Matches_Seq_inv in Hm as (? & ? & -> & ? & ?)
         end.
  repeat match goal with
         | Hm : Matches (Repeat _ (Class _)) _ |- _ => apply Matches_length_Repeat in Hm
         | Hm : Matches (Char _) _ |- _ => apply Matches_Class_inv in Hm as (? & -> & _)
         end.
  rewrite !length_app. simpl String.length. lia.
Qed.

(** X26: [brandedUuid] and [uuid] accept the same strings, unchanged: the
    36-character strings of the UUID pattern.  The required check that
    [brandedUuid] inherits never decides anything by itself, although it adds
    a second issue for the empty string. *)
Theorem brandedUuid_accepts_what_uuid_accepts :
  forall (brand : string) (label label' : option string) (msg : option MessageArg)
         (s o : string),
  (safeParse (brandedUuid brand label) (JString s) = success o
   <-> safeParse (Fragments.uuid label' msg) (JString s) = success o) /\
  (safeParse (brandedUuid brand label) (JString s) = success o ->
   o = s /\ String.length s = 36) /\
  safeParse (brandedUuid brand None) (JString "")
  = failure [ {| code := too_small; received := None;
                 message := brand ++ " is required" |};
              {| code := invalid_string; received := None;
                 message := brand ++ " must be a valid UUID" |} ].
Proof.
  intros brand label label' msg s o.
  assert (Hb : safeParse (brandedUuid brand label) (JString s) = success o
               <-> o = s /\ test uuidRegex s = true).
  { unfold brandedUuid, requiredString.
    destruct s as [|c s]; run_pipeline; cbn [String.length Nat.ltb Nat.leb]; run_pipeline.
    - split; [case_conditions; discriminate | intros [_ H]; discriminate H].
    - destruct (test uuidRegex (String c s)); simpl; split; try discriminate.
      + intro H. injection H as <-. auto.
      + intros [-> _]. reflexivity.
      + intros [_ H]. discriminate. }
  split; [rewrite Hb, uuid_success; reflexivity |].
  split; [| reflexivity].
  intro H. apply Hb in H as [-> Ht]. split; [reflexivity | now apply uuidRegex_length].
Qed.

Lemma brandedUuid_witness :
  safeParse (brandedUuid "OrderId" None) (JString "123e4567-e89b-12d3-a456-426614174000")
  = success "123e4567-e89b-12d3-a456-426614174000" /\
  String.length "123e4567-e89b-12d3-a456-426614174000" = 36.
Proof.
  split; [reflexivity |].
  exact (proj2 (proj1 (proj2 (brandedUuid_accepts_what_uuid_accepts "OrderId" None None None
                                "123e4567-e89b-12d3-a456-426614174000"
                                "123e4567-e89b-12d3-a456-426614174000")) eq_refl)).
Defined.
